(** * Inventory management system: embedding and verified properties

    Shallow embedding of [src/inventory_system.py].  The module keeps one
    process-wide dictionary [stock_data] (item name to quantity), mutates it
    through [add_item] and [remove_item], reads it through [get_qty] and
    [check_low_items], and persists it as JSON through [save_data] and
    [load_data].  Every operation also writes records to a log.

    The embedding is a state-and-exception monad over a [world] record that
    holds the dictionary, the log, the console, the list objects handed in by
    callers and the file system.  Python values are modelled by [pyval]; the
    universe is the one [json.load] can produce (None, bool, int, float, str,
    list, dict), which also covers the argument types the operations are
    annotated with. *)

From Stdlib Require Import String Ascii ZArith NArith List Bool Lia Floats.
From Stdlib Require DecimalZ DecimalPos DecimalFacts.
Import ListNotations.
Local Open Scope Z_scope.

(* ===================================================================== *)
(** ** Python values *)
(* ===================================================================== *)

(** A Python [str] is a sequence of Unicode code points. *)
Definition pystr : Type := list N.

(** [py "apple"] is the Python string with the same ASCII characters. *)
Definition py (s : string) : pystr :=
  map N_of_ascii (list_ascii_of_string s).

Fixpoint str_eqb (a b : pystr) : bool :=
  match a, b with
  | [], [] => true
  | x :: a', y :: b' => N.eqb x y && str_eqb a' b'
  | _, _ => false
  end.

#[warnings="-register-all"]
Inductive pyval : Type :=
| VNone
| VBool (b : bool)
| VInt (z : Z)
| VFloat (f : float)
| VStr (s : pystr)
| VList (l : list pyval)
| VDict (d : list (pystr * pyval)).

(** Exceptions, by class.  Messages are not modelled. *)
Inductive exn : Type :=
| TypeError
| KeyError
| OverflowError
| RecursionError
| FileNotFoundError
| IsADirectoryError
| PermissionError
| UnicodeDecodeError
| UnicodeEncodeError
| JSONDecodeError.

(** The classes named in the [except] clauses of the module. *)
Inductive exn_class : Type :=
| CTypeError | CKeyError | COSError | CFileNotFoundError | CJSONDecodeError.

(** [isinstance(e, c)] along Python's built-in exception hierarchy:
    FileNotFoundError, IsADirectoryError and PermissionError derive from
    OSError; the Unicode errors and JSONDecodeError derive from ValueError,
    which no handler of the module names. *)
Definition exn_isinstance (e : exn) (c : exn_class) : bool :=
  match c, e with
  | CTypeError, TypeError => true
  | CKeyError, KeyError => true
  | COSError, (FileNotFoundError | IsADirectoryError | PermissionError) => true
  | CFileNotFoundError, FileNotFoundError => true
  | CJSONDecodeError, JSONDecodeError => true
  | _, _ => false
  end.

Definition catches (cs : list exn_class) (e : exn) : bool :=
  existsb (exn_isinstance e) cs.

(** Result of evaluating an expression or a call. *)
Inductive outcome (A : Type) : Type :=
| Return (a : A)
| Raise (e : exn).
Arguments Return {A} a.
Arguments Raise {A} e.

Definition obind {A B : Type} (o : outcome A) (k : A -> outcome B) : outcome B :=
  match o with
  | Return a => k a
  | Raise e => Raise e
  end.

(** *** Type tests *)

Definition isinstance_str (v : pyval) : bool :=
  match v with VStr _ => true | _ => false end.

(** [bool] is a subclass of [int]. *)
Definition isinstance_int (v : pyval) : bool :=
  match v with VInt _ | VBool _ => true | _ => false end.

Definition isinstance_float (v : pyval) : bool :=
  match v with VFloat _ => true | _ => false end.

(** *** Arithmetic *)

(** Conversion of an int to a float as done for mixed arithmetic: round to
    nearest even on 53 bits, OverflowError past the largest double. *)
Definition int_to_float (z : Z) : outcome float :=
  match binary_normalize 53 1024 z 0 false with
  | S754_infinity _ | S754_nan => Raise OverflowError
  | sf => Return (SF2Prim sf)
  end.

Inductive num : Type :=
| NInt (z : Z)
| NFloat (f : float).

Definition as_num (v : pyval) : option num :=
  match v with
  | VInt z => Some (NInt z)
  | VBool b => Some (NInt (Z.b2z b))
  | VFloat f => Some (NFloat f)
  | _ => None
  end.

Definition num_arith (iop : Z -> Z -> Z) (fop : float -> float -> float)
    (a b : num) : outcome pyval :=
  match a, b with
  | NInt x, NInt y => Return (VInt (iop x y))
  | NInt x, NFloat g => obind (int_to_float x) (fun f => Return (VFloat (fop f g)))
  | NFloat f, NInt y => obind (int_to_float y) (fun g => Return (VFloat (fop f g)))
  | NFloat f, NFloat g => Return (VFloat (fop f g))
  end.

(** [a + b] *)
Definition py_add (a b : pyval) : outcome pyval :=
  match as_num a, as_num b with
  | Some x, Some y => num_arith Z.add PrimFloat.add x y
  | _, _ =>
      match a, b with
      | VStr s, VStr t => Return (VStr (s ++ t))
      | VList l, VList m => Return (VList (l ++ m))
      | _, _ => Raise TypeError
      end
  end.

(** [a - b] *)
Definition py_sub (a b : pyval) : outcome pyval :=
  match as_num a, as_num b with
  | Some x, Some y => num_arith Z.sub PrimFloat.sub x y
  | _, _ => Raise TypeError
  end.

(** Exact comparison of a float with an int; [None] when unordered (NaN). *)
Definition float_compare_int (f : float) (z : Z) : option comparison :=
  match Prim2SF f with
  | S754_nan => None
  | S754_infinity s => Some (if s then Lt else Gt)
  | S754_zero _ => Some (0 ?= z)
  | S754_finite s m e =>
      let sm := if s then Z.neg m else Z.pos m in
      Some (if 0 <=? e then sm * 2 ^ e ?= z else sm ?= z * 2 ^ (- e))
  end.

(** Ordering of a value against an int: numbers compare, anything else
    raises TypeError. *)
Definition py_compare_int (a : pyval) (z : Z) : outcome (option comparison) :=
  match as_num a with
  | Some (NInt x) => Return (Some (x ?= z))
  | Some (NFloat f) => Return (float_compare_int f z)
  | None => Raise TypeError
  end.

(** [a <= z] *)
Definition py_le_int (a : pyval) (z : Z) : outcome bool :=
  obind (py_compare_int a z) (fun c =>
    Return (match c with Some Lt | Some Eq => true | _ => false end)).

(** [a < z] *)
Definition py_lt_int (a : pyval) (z : Z) : outcome bool :=
  obind (py_compare_int a z) (fun c =>
    Return (match c with Some Lt => true | _ => false end)).

(* ===================================================================== *)
(** ** Dictionaries *)
(* ===================================================================== *)

(** A [dict] keeps its entries in insertion order.  The keys of the stock
    table are always text: [add_item] inserts text keys only and JSON object
    keys are text. *)
Definition dict : Type := list (pystr * pyval).

Definition keys (d : dict) : list pystr := map fst d.

Definition dict_wf (d : dict) : Prop := NoDup (keys d).

(** [d.get(k)] *)
Fixpoint dict_get (k : pystr) (d : dict) : option pyval :=
  match d with
  | [] => None
  | (k', v) :: d' => if str_eqb k k' then Some v else dict_get k d'
  end.

(** [k in d] *)
Definition dict_mem (k : pystr) (d : dict) : bool :=
  match dict_get k d with Some _ => true | None => false end.

(** [d[k] = v]: an existing key keeps its position, a new key goes last. *)
Fixpoint dict_set (k : pystr) (v : pyval) (d : dict) : dict :=
  match d with
  | [] => [(k, v)]
  | (k', v') :: d' =>
      if str_eqb k k' then (k', v) :: d' else (k', v') :: dict_set k v d'
  end.

(** [del d[k]] *)
Fixpoint dict_del (k : pystr) (d : dict) : dict :=
  match d with
  | [] => []
  | (k', v') :: d' =>
      if str_eqb k k' then d' else (k', v') :: dict_del k d'
  end.

(** Hashing of a value used as a key of the stock table: lists and dicts are
    unhashable; a hashable value that is not text equals no text key. *)
Definition hash_key (v : pyval) : outcome (option pystr) :=
  match v with
  | VStr s => Return (Some s)
  | VList _ | VDict _ => Raise TypeError
  | _ => Return None
  end.

Definition key_mem (k : option pystr) (d : dict) : bool :=
  match k with
  | Some name => dict_mem name d
  | None => false
  end.

(** [item in d] for an arbitrary value [item]. *)
Definition py_in (item : pyval) (d : dict) : outcome bool :=
  obind (hash_key item) (fun k => Return (key_mem k d)).

(** A table of integer quantities, as the data model describes it. *)
Definition of_ints (t : list (pystr * Z)) : dict :=
  map (fun kv => (fst kv, VInt (snd kv))) t.

(* ===================================================================== *)
(** ** The [json] library, as [save_data] and [load_data] use it *)
(* ===================================================================== *)

(** [json.dump(obj, f, indent=4)] and [json.load(f)] with the library's
    defaults: ASCII-only output, [','] and [': '] separators, strict
    decoding.  The text of a float is produced and read by the interpreter
    ([float.__repr__] and [float]); both are parameters here, as they are in
    the library ([_floatstr], [parse_float]).  Integer conversion follows the
    decimal notation without the interpreter's configurable limit on the
    number of digits.  The scanner is the accelerated one, which reads
    ASCII digits only and exactly four hexadecimal digits after [\u]. *)
Module json.
Local Open Scope N_scope.

(** *** Encoder *)

Definition hex_digit (n : N) : N := if n <? 10 then 48 + n else 87 + n.

(** ['{0:04x}'.format(n)] for [n < 0x10000] *)
Definition hex4 (n : N) : pystr :=
  [hex_digit (n / 4096 mod 16); hex_digit (n / 256 mod 16);
   hex_digit (n / 16 mod 16); hex_digit (n mod 16)].

Definition u_escape (n : N) : pystr := 92 :: 117 :: hex4 n.

(** The replacement of one character by [py_encode_basestring_ascii]:
    backslash, quote and everything outside [' '..'~'] are escaped; a code
    point past the basic plane becomes a surrogate pair. *)
Definition escape_char (c : N) : pystr :=
  if c =? 92 then [92; 92]
  else if c =? 34 then [92; 34]
  else if (32 <=? c) && (c <=? 126) then [c]
  else if c =? 8 then [92; 98]
  else if c =? 12 then [92; 102]
  else if c =? 10 then [92; 110]
  else if c =? 13 then [92; 114]
  else if c =? 9 then [92; 116]
  else if c <? 65536 then u_escape c
  else
    let n := c - 65536 in
    u_escape (N.lor 55296 (N.land (N.shiftr n 10) 1023))
      ++ u_escape (N.lor 56320 (N.land n 1023)).

Definition encode_basestring_ascii (s : pystr) : pystr :=
  34 :: flat_map escape_char s ++ [34].

Fixpoint uint_chars (u : Decimal.uint) : pystr :=
  match u with
  | Decimal.Nil => []
  | Decimal.D0 u => 48 :: uint_chars u
  | Decimal.D1 u => 49 :: uint_chars u
  | Decimal.D2 u => 50 :: uint_chars u
  | Decimal.D3 u => 51 :: uint_chars u
  | Decimal.D4 u => 52 :: uint_chars u
  | Decimal.D5 u => 53 :: uint_chars u
  | Decimal.D6 u => 54 :: uint_chars u
  | Decimal.D7 u => 55 :: uint_chars u
  | Decimal.D8 u => 56 :: uint_chars u
  | Decimal.D9 u => 57 :: uint_chars u
  end.

(** [int.__repr__] *)
Definition int_repr (z : Z) : pystr :=
  match Z.to_int z with
  | Decimal.Pos u => uint_chars u
  | Decimal.Neg u => 45 :: uint_chars u
  end.

(** ['\n' + ' ' * (4 * level)] *)
Definition newline_indent (level : nat) : pystr :=
  10 :: repeat 32 (4 * level)%nat.

Section Encoder.

Variable floatstr : float -> pystr.

(** [_iterencode], with the chunks concatenated. *)
Fixpoint iterencode (level : nat) (o : pyval) {struct o} : pystr :=
  match o with
  | VStr s => encode_basestring_ascii s
  | VNone => py "null"
  | VBool true => py "true"
  | VBool false => py "false"
  | VInt z => int_repr z
  | VFloat f => floatstr f
  | VList [] => py "[]"
  | VList l =>
      91 ::
      (fix items (l : list pyval) : pystr :=
         match l with
         | [] => newline_indent level ++ [93]
         | value :: l' =>
             newline_indent (S level) ++ iterencode (S level) value
               ++ match l' with
                  | [] => items l'
                  | _ => 44 :: items l'
                  end
         end) l
  | VDict [] => py "{}"
  | VDict d =>
      123 ::
      (fix items (d : list (pystr * pyval)) : pystr :=
         match d with
         | [] => newline_indent level ++ [125]
         | (key, value) :: d' =>
             newline_indent (S level) ++ encode_basestring_ascii key
               ++ 58 :: 32 :: iterencode (S level) value
               ++ match d' with
                  | [] => items d'
                  | _ => 44 :: items d'
                  end
         end) d
  end.

(** The text [json.dump(obj, f, indent=4)] writes. *)
Definition dumps (obj : pyval) : pystr := iterencode 0 obj.

End Encoder.

(** *** Decoder *)

Inductive scan (A : Type) : Type :=
| Scanned (a : A) (rest : pystr)
| StopIteration
| DecodeError
| Exhausted.
Arguments Scanned {A} a rest.
Arguments StopIteration {A}.
Arguments DecodeError {A}.
Arguments Exhausted {A}.

Definition scan_map {A B : Type} (f : A -> B) (r : scan A) : scan B :=
  match r with
  | Scanned a rest => Scanned (f a) rest
  | StopIteration => StopIteration
  | DecodeError => DecodeError
  | Exhausted => Exhausted
  end.

Definition is_ws (c : N) : bool :=
  (c =? 32) || (c =? 9) || (c =? 10) || (c =? 13).

(** [WHITESPACE.match(s, end).end()] *)
Fixpoint skip_ws (s : pystr) : pystr :=
  match s with
  | c :: rest => if is_ws c then skip_ws rest else s
  | [] => []
  end.

Definition hex_value (c : N) : option N :=
  if (48 <=? c) && (c <=? 57) then Some (c - 48)
  else if (97 <=? c) && (c <=? 102) then Some (c - 87)
  else if (65 <=? c) && (c <=? 70) then Some (c - 55)
  else None.

Definition hex4_value (a b c d : N) : option N :=
  match hex_value a, hex_value b, hex_value c, hex_value d with
  | Some x, Some y, Some z, Some t => Some (((x * 16 + y) * 16 + z) * 16 + t)
  | _, _, _, _ => None
  end.

(** The table [BACKSLASH]. *)
Definition backslash (esc : N) : option N :=
  if esc =? 34 then Some 34
  else if esc =? 92 then Some 92
  else if esc =? 47 then Some 47
  else if esc =? 98 then Some 8
  else if esc =? 102 then Some 12
  else if esc =? 110 then Some 10
  else if esc =? 114 then Some 13
  else if esc =? 116 then Some 9
  else None.

Definition is_high_surrogate (u : N) : bool := (55296 <=? u) && (u <=? 56319).
Definition is_low_surrogate (u : N) : bool := (56320 <=? u) && (u <=? 57343).

Definition join_surrogates (hi lo : N) : N :=
  65536 + N.lor (N.shiftl (hi - 55296) 10) (lo - 56320).

Definition push (c : N) (r : scan pystr) : scan pystr :=
  scan_map (cons c) r.

(** After the escape of a high surrogate: when the text goes on with [\u]
    the next escape is decoded, and a low surrogate is joined with the high
    one. *)
Definition after_high {A : Type} (r : pystr) (paired : N -> pystr -> A)
    (single : A) (invalid : A) : A :=
  match r with
  | b :: u :: r2 =>
      if (b =? 92) && (u =? 117) then
        match r2 with
        | g1 :: g2 :: g3 :: g4 :: r6 =>
            match hex4_value g1 g2 g3 g4 with
            | Some lo => if is_low_surrogate lo then paired lo r6 else single
            | None => invalid
            end
        | _ => invalid
        end
      else single
  | _ => single
  end.

(** [scanstring(s, end)], started after the opening quote. *)
Fixpoint scanstring (s : pystr) : scan pystr :=
  match s with
  | [] => DecodeError
  | c :: rest =>
      if c =? 34 then Scanned [] rest
      else if c =? 92 then
        match rest with
        | [] => DecodeError
        | esc :: r1 =>
            if esc =? 117 then
              match r1 with
              | h1 :: h2 :: h3 :: h4 :: r5 =>
                  match hex4_value h1 h2 h3 h4 with
                  | Some uni =>
                      if is_high_surrogate uni then
                        after_high r5
                          (fun lo r11 =>
                             push (join_surrogates uni lo) (scanstring r11))
                          (push uni (scanstring r5))
                          DecodeError
                      else push uni (scanstring r5)
                  | None => DecodeError
                  end
              | _ => DecodeError
              end
            else
              match backslash esc with
              | Some char => push char (scanstring r1)
              | None => DecodeError
              end
        end
      else if c <? 32 then DecodeError
      else push c (scanstring rest)
  end.

(** *** Numbers *)

Definition is_digit (c : N) : bool := (48 <=? c) && (c <=? 57).

Fixpoint span_digits (s : pystr) : pystr * pystr :=
  match s with
  | c :: rest =>
      if is_digit c then
        let (ds, rest') := span_digits rest in (c :: ds, rest')
      else ([], s)
  | [] => ([], [])
  end.

(** The integer part of [NUMBER_RE]: an optional minus sign, then either
    a single zero or a non-zero digit followed by digits. *)
Definition match_integer (s : pystr) : option (pystr * pystr) :=
  let (sign, s1) :=
    match s with
    | c :: rest => if c =? 45 then ([45], rest) else ([], s)
    | [] => ([], [])
    end in
  match s1 with
  | c :: rest =>
      if c =? 48 then Some (sign ++ [48], rest)
      else if is_digit c then
        let (ds, rest') := span_digits rest in Some (sign ++ c :: ds, rest')
      else None
  | [] => None
  end.

(** The optional fraction of [NUMBER_RE]: a dot and at least one digit. *)
Definition match_frac (s : pystr) : pystr * pystr :=
  match s with
  | c :: rest =>
      if c =? 46 then
        match span_digits rest with
        | ([], _) => ([], s)
        | (ds, rest') => (46 :: ds, rest')
        end
      else ([], s)
  | [] => ([], [])
  end.

(** The optional exponent of [NUMBER_RE]: e or E, an optional sign and at
    least one digit. *)
Definition match_exp (s : pystr) : pystr * pystr :=
  match s with
  | c :: rest =>
      if (c =? 101) || (c =? 69) then
        let (sign, r1) :=
          match rest with
          | d :: rest' =>
              if (d =? 43) || (d =? 45) then ([d], rest') else ([], rest)
          | [] => ([], [])
          end in
        match span_digits r1 with
        | ([], _) => ([], s)
        | (ds, rest') => (c :: sign ++ ds, rest')
        end
      else ([], s)
  | [] => ([], [])
  end.

Definition digit_of_char (c : N) (u : Decimal.uint) : Decimal.uint :=
  if c =? 48 then Decimal.D0 u
  else if c =? 49 then Decimal.D1 u
  else if c =? 50 then Decimal.D2 u
  else if c =? 51 then Decimal.D3 u
  else if c =? 52 then Decimal.D4 u
  else if c =? 53 then Decimal.D5 u
  else if c =? 54 then Decimal.D6 u
  else if c =? 55 then Decimal.D7 u
  else if c =? 56 then Decimal.D8 u
  else Decimal.D9 u.

Fixpoint uint_of_chars (s : pystr) : Decimal.uint :=
  match s with
  | [] => Decimal.Nil
  | c :: rest => digit_of_char c (uint_of_chars rest)
  end.

(** [int(integer)] on a text matched by [match_integer]. *)
Definition int_value (s : pystr) : Z :=
  match s with
  | c :: rest =>
      if c =? 45 then Z.of_int (Decimal.Neg (uint_of_chars rest))
      else Z.of_int (Decimal.Pos (uint_of_chars s))
  | [] => 0%Z
  end.

Fixpoint starts_with (prefix s : pystr) : option pystr :=
  match prefix, s with
  | [], _ => Some s
  | p :: prefix', c :: s' => if p =? c then starts_with prefix' s' else None
  | _ :: _, [] => None
  end.

(** [dict(pairs)]: a repeated key keeps its first position and takes the
    last value. *)
Definition dict_of_pairs (pairs : list (pystr * pyval)) : dict :=
  fold_left (fun d kv => dict_set (fst kv) (snd kv) d) pairs [].

Section Decoder.

Variable parse_float : pystr -> float.

(** The loop of [JSONObject], entered after the opening quote of a key. *)
Fixpoint object_pairs (scan_once : pystr -> scan pyval) (fuel : nat)
    (s : pystr) (pairs : list (pystr * pyval)) : scan pyval :=
  match fuel with
  | O => Exhausted
  | S fuel' =>
      match scanstring s with
      | Scanned key r1 =>
          match skip_ws r1 with
          | c :: r2 =>
              if c =? 58 then
                match scan_once (skip_ws r2) with
                | Scanned value r3 =>
                    let pairs' := pairs ++ [(key, value)] in
                    match skip_ws r3 with
                    | d :: r4 =>
                        if d =? 125 then
                          Scanned (VDict (dict_of_pairs pairs')) r4
                        else if d =? 44 then
                          match skip_ws r4 with
                          | q :: r5 =>
                              if q =? 34
                              then object_pairs scan_once fuel' r5 pairs'
                              else DecodeError
                          | [] => DecodeError
                          end
                        else DecodeError
                    | [] => DecodeError
                    end
                | StopIteration => DecodeError
                | DecodeError => DecodeError
                | Exhausted => Exhausted
                end
              else DecodeError
          | [] => DecodeError
          end
      | StopIteration => DecodeError
      | DecodeError => DecodeError
      | Exhausted => Exhausted
      end
  end.

(** [JSONObject((s, end), ...)], started after the opening brace. *)
Definition JSONObject (scan_once : pystr -> scan pyval) (fuel : nat)
    (s : pystr) : scan pyval :=
  match skip_ws s with
  | c :: rest =>
      if c =? 125 then Scanned (VDict []) rest
      else if c =? 34 then object_pairs scan_once fuel rest []
      else DecodeError
  | [] => DecodeError
  end.

(** The loop of [JSONArray]. *)
Fixpoint array_values (scan_once : pystr -> scan pyval) (fuel : nat)
    (s : pystr) (values : list pyval) : scan pyval :=
  match fuel with
  | O => Exhausted
  | S fuel' =>
      match scan_once s with
      | Scanned value r1 =>
          let values' := values ++ [value] in
          match skip_ws r1 with
          | d :: r2 =>
              if d =? 93 then Scanned (VList values') r2
              else if d =? 44 then
                array_values scan_once fuel' (skip_ws r2) values'
              else DecodeError
          | [] => DecodeError
          end
      | StopIteration => DecodeError
      | DecodeError => DecodeError
      | Exhausted => Exhausted
      end
  end.

(** [JSONArray((s, end), scan_once)], started after the opening bracket. *)
Definition JSONArray (scan_once : pystr -> scan pyval) (fuel : nat)
    (s : pystr) : scan pyval :=
  match skip_ws s with
  | c :: rest =>
      if c =? 93 then Scanned (VList []) rest
      else array_values scan_once fuel (c :: rest) []
  | [] => array_values scan_once fuel [] []
  end.

Definition scan_constant (s : pystr) : scan pyval :=
  match starts_with (py "NaN") s with
  | Some rest => Scanned (VFloat PrimFloat.nan) rest
  | None =>
      match starts_with (py "Infinity") s with
      | Some rest => Scanned (VFloat PrimFloat.infinity) rest
      | None =>
          match starts_with (py "-Infinity") s with
          | Some rest => Scanned (VFloat PrimFloat.neg_infinity) rest
          | None => StopIteration
          end
      end
  end.

Definition scan_number (s : pystr) : scan pyval :=
  match match_integer s with
  | Some (integer, r1) =>
      let (frac, r2) := match_frac r1 in
      let (exp, r3) := match_exp r2 in
      match frac, exp with
      | [], [] => Scanned (VInt (int_value integer)) r3
      | _, _ => Scanned (VFloat (parse_float (integer ++ frac ++ exp))) r3
      end
  | None => scan_constant s
  end.

Definition scan_literal (s : pystr) : scan pyval :=
  match starts_with (py "null") s with
  | Some rest => Scanned VNone rest
  | None =>
      match starts_with (py "true") s with
      | Some rest => Scanned (VBool true) rest
      | None =>
          match starts_with (py "false") s with
          | Some rest => Scanned (VBool false) rest
          | None => scan_number s
          end
      end
  end.

(** [scan_once(string, idx)].  The fuel bounds the nesting of values and the
    length of the loops; [loads] hands out more than the text is long. *)
Fixpoint scan_once (fuel : nat) (s : pystr) : scan pyval :=
  match fuel with
  | O => Exhausted
  | S fuel' =>
      match s with
      | [] => StopIteration
      | c :: rest =>
          if c =? 34 then scan_map VStr (scanstring rest)
          else if c =? 123 then JSONObject (scan_once fuel') fuel' rest
          else if c =? 91 then JSONArray (scan_once fuel') fuel' rest
          else scan_literal s
      end
  end.

(** [json.loads(s)]: no byte-order mark, one value, nothing but whitespace
    after it.  Running out of fuel stands for the interpreter's limit on
    nesting. *)
Definition loads (s : pystr) : outcome pyval :=
  match starts_with [65279] s with
  | Some _ => Raise JSONDecodeError
  | None =>
      match scan_once (S (length s)) (skip_ws s) with
      | Scanned obj rest =>
          match skip_ws rest with
          | [] => Return obj
          | _ :: _ => Raise JSONDecodeError
          end
      | StopIteration => Raise JSONDecodeError
      | DecodeError => Raise JSONDecodeError
      | Exhausted => Raise RecursionError
      end
  end.

End Decoder.

End json.

(* ===================================================================== *)
(** ** Text files *)
(* ===================================================================== *)

(** Files are opened in text mode with [encoding="utf-8"] and the default
    newline handling.  Writing is modelled for a platform whose line
    separator is ['\n'] (nothing is translated); reading translates ['\r\n']
    and ['\r'] to ['\n']. *)
Module textio.
Local Open Scope N_scope.

Definition encode_char (c : N) : outcome (list N) :=
  if c <? 128 then Return [c]
  else if c <? 2048 then Return [192 + c / 64; 128 + c mod 64]
  else if c <? 65536 then
    if (55296 <=? c) && (c <=? 57343) then Raise UnicodeEncodeError
    else Return [224 + c / 4096; 128 + (c / 64) mod 64; 128 + c mod 64]
  else
    Return [240 + c / 262144; 128 + (c / 4096) mod 64;
            128 + (c / 64) mod 64; 128 + c mod 64].

(** [s.encode("utf-8")] *)
Fixpoint utf8_encode (s : pystr) : outcome (list N) :=
  match s with
  | [] => Return []
  | c :: rest =>
      obind (encode_char c) (fun bs =>
      obind (utf8_encode rest) (fun bs' => Return (bs ++ bs')))
  end.

Definition is_cont (b : N) : bool := (128 <=? b) && (b <=? 191).

Definition in_range (lo hi b : N) : bool := (lo <=? b) && (b <=? hi).

Definition decoded (c : N) (r : outcome pystr) : outcome pystr :=
  obind r (fun s => Return (c :: s)).

(** [bs.decode("utf-8")], strict: no overlong forms, no surrogates, nothing
    past U+10FFFF. *)
Fixpoint utf8_decode (bs : list N) : outcome pystr :=
  match bs with
  | [] => Return []
  | b0 :: r0 =>
      if b0 <? 128 then decoded b0 (utf8_decode r0)
      else if in_range 194 223 b0 then
        match r0 with
        | b1 :: r1 =>
            if is_cont b1
            then decoded ((b0 - 192) * 64 + (b1 - 128)) (utf8_decode r1)
            else Raise UnicodeDecodeError
        | _ => Raise UnicodeDecodeError
        end
      else if in_range 224 239 b0 then
        match r0 with
        | b1 :: b2 :: r2 =>
            if in_range (if b0 =? 224 then 160 else 128)
                        (if b0 =? 237 then 159 else 191) b1
               && is_cont b2
            then decoded ((b0 - 224) * 4096 + (b1 - 128) * 64 + (b2 - 128))
                         (utf8_decode r2)
            else Raise UnicodeDecodeError
        | _ => Raise UnicodeDecodeError
        end
      else if in_range 240 244 b0 then
        match r0 with
        | b1 :: b2 :: b3 :: r3 =>
            if in_range (if b0 =? 240 then 144 else 128)
                        (if b0 =? 244 then 143 else 191) b1
               && is_cont b2 && is_cont b3
            then decoded ((b0 - 240) * 262144 + (b1 - 128) * 4096
                          + (b2 - 128) * 64 + (b3 - 128))
                         (utf8_decode r3)
            else Raise UnicodeDecodeError
        | _ => Raise UnicodeDecodeError
        end
      else Raise UnicodeDecodeError
  end.

(** Universal newlines on input. *)
Fixpoint universal_newlines (s : pystr) : pystr :=
  match s with
  | [] => []
  | c :: rest =>
      if c =? 13 then
        10 :: match rest with
              | d :: rest' =>
                  if d =? 10 then universal_newlines rest'
                  else universal_newlines rest
              | [] => []
              end
      else c :: universal_newlines rest
  end.

(** [f.read()] on the bytes of a file. *)
Definition read_text (content : list N) : outcome pystr :=
  obind (utf8_decode content) (fun s => Return (universal_newlines s)).

End textio.
(* ===================================================================== *)
(** ** The world: state threaded through every operation *)
(* ===================================================================== *)

Inductive level : Type := INFO | WARNING | ERROR.

(** Argument of a log call: a value, or the exception bound by [as err]. *)
Inductive log_arg : Type :=
| AVal (v : pyval)
| AExc (e : exn).

(** A record handed to [logging]: level, format string, arguments.  The
    handler appends one line per record to [inventory.log]; the level is
    INFO, so no record of the three levels is filtered out. *)
Record log_record : Type := mkLog {
  log_level : level;
  log_format : string;
  log_args : list log_arg
}.

(** Entry appended to a caller's [logs] list by [add_item]; it stands for
    the text [f"{datetime.now()}: Added {qty} of {item}"]. *)
Record log_entry : Type := mkEntry {
  entry_time : Z;
  entry_qty : pyval;
  entry_item : pyval
}.

(** Lines printed by [print_data]. *)
Inductive out_line : Type :=
| ReportHeader
| ReportLine (item : pystr) (qty : pyval).

(** What a path names in the file system.  Contents are bytes. *)
Inductive node : Type :=
| NoEntry (creatable : bool)
| Directory
| Regular (readable writable : bool) (content : list N).

Record world : Type := mkWorld {
  stock_data : dict;
  inventory_log : list log_record;
  console : list out_line;
  heap : list (list log_entry);
  files : list (pystr * node);
  clock : Z
}.

Definition set_stock (d : dict) (w : world) : world :=
  mkWorld d (inventory_log w) (console w) (heap w) (files w) (clock w).

Definition set_log (l : list log_record) (w : world) : world :=
  mkWorld (stock_data w) l (console w) (heap w) (files w) (clock w).


Definition set_heap (h : list (list log_entry)) (w : world) : world :=
  mkWorld (stock_data w) (inventory_log w) (console w) h (files w) (clock w).

Definition set_files (f : list (pystr * node)) (w : world) : world :=
  mkWorld (stock_data w) (inventory_log w) (console w) (heap w) f (clock w).

(** The module right after import: [stock_data = {}], nothing logged. *)
Definition initial_world : world := mkWorld [] [] [] [] [] 0.

(** *** The monad *)

Definition M (A : Type) : Type := world -> outcome A * world.

Definition ret {A : Type} (a : A) : M A := fun w => (Return a, w).

Definition raise {A : Type} (e : exn) : M A := fun w => (Raise e, w).

Definition bind {A B : Type} (m : M A) (k : A -> M B) : M B :=
  fun w =>
    match m w with
    | (Return a, w') => k a w'
    | (Raise e, w') => (Raise e, w')
    end.

Definition lift {A : Type} (o : outcome A) : M A := fun w => (o, w).

Definition gets {A : Type} (f : world -> A) : M A := fun w => (Return (f w), w).

Definition modify (f : world -> world) : M unit := fun w => (Return tt, f w).

(** The [except] clauses of a [try], in order: the first clause naming a
    class of the exception handles it; without one it goes on to the
    caller. *)
Fixpoint handle {A : Type} (clauses : list (list exn_class * (exn -> M A)))
    (e : exn) : M A :=
  match clauses with
  | [] => raise e
  | (cs, handler) :: clauses' =>
      if catches cs e then handler e else handle clauses' e
  end.

(** [try: body / except cs1 as err: h1 err / except cs2 as err: h2 err ...] *)
Definition try_except {A : Type} (body : M A)
    (clauses : list (list exn_class * (exn -> M A))) : M A :=
  fun w =>
    match body w with
    | (Raise e, w') => handle clauses e w'
    | r => r
    end.

Declare Scope py_scope.
Delimit Scope py_scope with py.
Notation "x <- m ;; k" := (bind m (fun x => k))
  (at level 61, m at next level, right associativity) : py_scope.
Notation "m ;;; k" := (bind m (fun _ => k))
  (at level 61, right associativity) : py_scope.
Local Open Scope py_scope.

(** *** Logging and the caller's list *)

Definition logging (lv : level) (fmt : string) (args : list log_arg) : M unit :=
  modify (fun w => set_log (inventory_log w ++ [mkLog lv fmt args]) w).

Definition logging_info := logging INFO.
Definition logging_warning := logging WARNING.
Definition logging_error := logging ERROR.

Fixpoint heap_append (r : nat) (e : log_entry) (h : list (list log_entry))
    : list (list log_entry) :=
  match h, r with
  | [], _ => []
  | l :: h', O => (l ++ [e]) :: h'
  | l :: h', S r' => l :: heap_append r' e h'
  end.

(** [logs.append(e)].  [logs] is a reference to a list object of the caller;
    with [None] the entry goes to a fresh list that nobody else holds, which
    leaves no trace in the world. *)
Definition logs_append (logs : option nat) (e : log_entry) : M unit :=
  match logs with
  | None => ret tt
  | Some r => modify (fun w => set_heap (heap_append r e (heap w)) w)
  end.

(** [stock_data[k]] *)
Definition stock_getitem (k : pystr) : M pyval :=
  fun w =>
    match dict_get k (stock_data w) with
    | Some v => (Return v, w)
    | None => (Raise KeyError, w)
    end.

(** [stock_data[k] = v] *)
Definition stock_setitem (k : pystr) (v : pyval) : M unit :=
  modify (fun w => set_stock (dict_set k v (stock_data w)) w).

(** [del stock_data[k]] *)
Definition stock_delitem (k : pystr) : M unit :=
  fun w =>
    if dict_mem k (stock_data w)
    then (Return tt, set_stock (dict_del k (stock_data w)) w)
    else (Raise KeyError, w).

(* ===================================================================== *)
(** ** The operations *)
(* ===================================================================== *)

(** [add_item(item, qty, logs)].  The guard is
    [not isinstance(item, str) or not isinstance(qty, int)]; past it [item]
    is a [VStr]. *)
Definition add_item (item qty : pyval) (logs : option nat) : M unit :=
  match item with
  | VStr name =>
      if isinstance_int qty then
        cur <- gets (fun w =>
                 match dict_get name (stock_data w) with
                 | Some v => v
                 | None => VInt 0
                 end) ;;
        v <- lift (py_add cur qty) ;;
        stock_setitem name v ;;;
        now <- gets clock ;;
        logs_append logs (mkEntry now qty item) ;;;
        logging_info "Added %d of %s to inventory." [AVal qty; AVal item]
      else
        logging_warning "Invalid data types for add_item: item=%s, qty=%s"
          [AVal item; AVal qty]
  | _ =>
      logging_warning "Invalid data types for add_item: item=%s, qty=%s"
        [AVal item; AVal qty]
  end.

(** [remove_item(item, qty)].  [item in stock_data] hashes [item]; only a
    text value can be found among the keys. *)
Definition remove_item (item qty : pyval) : M unit :=
  try_except
    (k <- lift (hash_key item) ;;
     present <- gets (fun w => key_mem k (stock_data w)) ;;
     match k, present with
     | Some name, true =>
         cur <- stock_getitem name ;;
         v <- lift (py_sub cur qty) ;;
         stock_setitem name v ;;;
         cur' <- stock_getitem name ;;
         le <- lift (py_le_int cur' 0) ;;
         if (le : bool) then
           stock_delitem name ;;;
           logging_info "Removed %s completely from inventory." [AVal item]
         else
           logging_info "Removed %d of %s from inventory." [AVal qty; AVal item]
     | _, _ =>
         logging_warning "Attempted to remove non-existent item: %s" [AVal item]
     end)
    [([CKeyError; CTypeError],
      fun err =>
        logging_error "Error removing item %s: %s" [AVal item; AExc err])].

(** [get_qty(item)]: [stock_data.get(item)], [None] when absent. *)
Definition get_qty (item : pyval) : M pyval :=
  k <- lift (hash_key item) ;;
  gets (fun w =>
    match k with
    | Some name =>
        match dict_get name (stock_data w) with
        | Some v => v
        | None => VNone
        end
    | None => VNone
    end).

(** The comprehension [[item for item, qty in d.items() if qty < threshold]]. *)
Fixpoint low_items (threshold : Z) (d : dict) : outcome (list pystr) :=
  match d with
  | [] => Return []
  | (item, qty) :: d' =>
      obind (py_lt_int qty threshold) (fun low =>
      obind (low_items threshold d') (fun rest =>
      Return (if (low : bool) then item :: rest else rest)))
  end.

(** [check_low_items(threshold)] *)
Definition check_low_items (threshold : Z) : M (list pystr) :=
  d <- gets stock_data ;;
  lift (low_items threshold d).



(* ===================================================================== *)
(** ** Persistence *)
(* ===================================================================== *)

(** What [file] names; a path the file system does not list names nothing
    and can be created. *)
Fixpoint file_node (file : pystr) (fs : list (pystr * node)) : node :=
  match fs with
  | [] => NoEntry true
  | (p, n) :: fs' => if str_eqb file p then n else file_node file fs'
  end.

Definition put_node (file : pystr) (n : node) : M unit :=
  modify (fun w => set_files ((file, n) :: files w) w).

(** [open(file, "r", encoding="utf-8")]: the content to be read. *)
Definition open_read (file : pystr) : M (list N) :=
  n <- gets (fun w => file_node file (files w)) ;;
  match n with
  | NoEntry _ => raise FileNotFoundError
  | Directory => raise IsADirectoryError
  | Regular readable _ content =>
      if readable then ret content else raise PermissionError
  end.

(** [open(file, "w", encoding="utf-8")]: the file is created or truncated;
    the result carries its permissions.  A path that names nothing and cannot
    be created (no parent directory) gives FileNotFoundError. *)
Definition open_write (file : pystr) : M (bool * bool) :=
  n <- gets (fun w => file_node file (files w)) ;;
  match n with
  | NoEntry creatable =>
      if creatable then put_node file (Regular true true []) ;;; ret (true, true)
      else raise FileNotFoundError
  | Directory => raise IsADirectoryError
  | Regular readable writable _ =>
      if writable
      then put_node file (Regular readable writable []) ;;; ret (readable, writable)
      else raise PermissionError
  end.

(** Writing [text] to the file just opened and closing it.  When the text
    cannot be encoded the file stays truncated. *)
Definition write_text (file : pystr) (perms : bool * bool) (text : pystr)
    : M unit :=
  bs <- lift (textio.utf8_encode text) ;;
  put_node file (Regular (fst perms) (snd perms) bs).

Section Persistence.

Variable floatstr : float -> pystr.
Variable parse_float : pystr -> float.

(** [load_data(file)] *)
Definition load_data (file : pystr) : M pyval :=
  try_except
    (content <- open_read file ;;
     text <- lift (textio.read_text content) ;;
     data <- lift (json.loads parse_float text) ;;
     logging_info "Inventory data loaded successfully from %s"
       [AVal (VStr file)] ;;;
     ret data)
    [([CFileNotFoundError],
      fun _ =>
        logging_warning "File %s not found. Starting with an empty inventory."
          [AVal (VStr file)] ;;;
        ret (VDict []));
     ([CJSONDecodeError],
      fun err =>
        logging_error "Error decoding JSON file %s: %s"
          [AVal (VStr file); AExc err] ;;;
        ret (VDict []))].

(** [save_data(file)] *)
Definition save_data (file : pystr) : M unit :=
  try_except
    (perms <- open_write file ;;
     d <- gets stock_data ;;
     write_text file perms (json.dumps floatstr (VDict d)) ;;;
     logging_info "Inventory data saved successfully to %s"
       [AVal (VStr file)])
    [([COSError],
      fun err =>
        logging_error "Error saving data to %s: %s"
          [AVal (VStr file); AExc err])].

End Persistence.

(** *** Sequences of mutations *)

Inductive op : Type :=
| OpAdd (item qty : pyval) (logs : option nat)
| OpRemove (item qty : pyval).

Definition run_op (o : op) : M unit :=
  match o with
  | OpAdd item qty logs => add_item item qty logs
  | OpRemove item qty => remove_item item qty
  end.

(** The caller goes on after each call, whatever its outcome. *)
Definition run_ops (ops : list op) (w : world) : world :=
  fold_left (fun w o => snd (run_op o w)) ops w.

(** An [add_item] call that passes the type check adds a strictly positive
    amount, and no [remove_item] call is given a float. *)
Definition admissible (o : op) : bool :=
  match o with
  | OpAdd item qty _ =>
      if isinstance_str item && isinstance_int qty then
        match as_num qty with
        | Some (NInt z) => 0 <? z
        | _ => false
        end
      else true
  | OpRemove _ qty => negb (isinstance_float qty)
  end.

Definition positive_int (v : pyval) : Prop :=
  exists z, v = VInt z /\ 0 < z.

(** [stock_data.get(name, 0)] *)
Definition current (name : pystr) (d : dict) : pyval :=
  match dict_get name d with
  | Some v => v
  | None => VInt 0
  end.


(** Every entry of the table holds a strictly positive integer. *)
Definition all_positive (d : dict) : Prop :=
  forall k v, In (k, v) d -> positive_int v.

Definition total (qtys : list Z) : Z := fold_right Z.add 0 qtys.

(** The calls [add_item(item, q)] for the quantities [qtys], in order. *)
Definition adds (item : pystr) (qtys : list Z) : list op :=
  map (fun q => OpAdd (VStr item) (VInt q) None) qtys.

(** *** Keys that the JSON text carries unchanged *)




Section DictItems.

Variable floatstr : float -> pystr.
Variable level : nat.


End DictItems.





(** Float formatting and parsing used in examples whose data hold no
    float. *)
Definition floatstr_unused : float -> pystr := fun _ => py "0.0".
Definition parse_float_unused : pystr -> float := fun _ => 0%float.

(* ===================================================================== *)
(** ** Further definitions used by the properties below *)
(* ===================================================================== *)

(** The item an operation is about. *)
Definition op_item (o : op) : pyval :=
  match o with
  | OpAdd item _ _ => item
  | OpRemove item _ => item
  end.

(** The outcomes of the calls of a sequence, in order; as in [run_ops] the
    caller goes on after each call. *)
Fixpoint run_ops_outcomes (ops : list op) (w : world) : list (outcome unit) :=
  match ops with
  | [] => []
  | o :: ops' => fst (run_op o w) :: run_ops_outcomes ops' (snd (run_op o w))
  end.



(** Every stored quantity is a number (int, bool or float). *)
Definition all_numeric (d : dict) : bool :=
  forallb (fun kv => match as_num (snd kv) with
                     | Some _ => true
                     | None => false
                     end) d.




(** The world after [logs.append(e)]. *)
Definition with_entry (logs : option nat) (e : log_entry) (w : world) : world :=
  match logs with
  | None => w
  | Some r => set_heap (heap_append r e (heap w)) w
  end.

Definition returned (o : outcome unit) : bool :=
  match o with
  | Return _ => true
  | Raise _ => false
  end.

(* ===================================================================== *)
(** * Properties *)
(* ===================================================================== *)

(** ** Keys and dictionaries *)

Lemma str_eqb_eq (a b : pystr) : str_eqb a b = true <-> a = b.
Proof.
  revert b; induction a as [|x a IH]; intros [|y b]; simpl;
    try (split; [discriminate | intros H; discriminate H]); [tauto|].
  rewrite andb_true_iff, N.eqb_eq, IH.
  split; [intros [-> ->]; reflexivity | intros H; inversion H; auto].
Qed.

Lemma str_eqb_refl (a : pystr) : str_eqb a a = true.
Proof. apply str_eqb_eq; reflexivity. Qed.

Lemma str_eqb_neq (a b : pystr) : a <> b -> str_eqb a b = false.
Proof.
  intros H; destruct (str_eqb a b) eqn:E; [|reflexivity].
  apply str_eqb_eq in E; contradiction.
Qed.

Lemma dict_get_set_same (k : pystr) (v : pyval) (d : dict) :
  dict_get k (dict_set k v d) = Some v.
Proof.
  induction d as [|[k' v'] d IH]; simpl.
  - now rewrite str_eqb_refl.
  - destruct (str_eqb k k') eqn:E; simpl; rewrite E; auto.
Qed.

Lemma dict_get_set_other (k k' : pystr) (v : pyval) (d : dict) :
  k <> k' -> dict_get k' (dict_set k v d) = dict_get k' d.
Proof.
  intros Hne; induction d as [|[k0 v0] d IH]; simpl.
  - rewrite str_eqb_neq; auto.
  - destruct (str_eqb k k0) eqn:E; simpl.
    + apply str_eqb_eq in E; subst k0.
      rewrite str_eqb_neq by auto; reflexivity.
    + rewrite IH; reflexivity.
Qed.

Lemma dict_get_In (k : pystr) (v : pyval) (d : dict) :
  dict_get k d = Some v -> In (k, v) d.
Proof.
  induction d as [|[k' v'] d IH]; simpl; [discriminate|].
  destruct (str_eqb k k') eqn:E.
  - apply str_eqb_eq in E; subst; intros [= ->]; auto.
  - auto.
Qed.

Lemma dict_get_None_keys (k : pystr) (d : dict) :
  dict_get k d = None <-> ~ In k (keys d).
Proof.
  induction d as [|[k' v'] d IH]; simpl; [tauto|].
  destruct (str_eqb k k') eqn:E.
  - apply str_eqb_eq in E; subst. split; [discriminate | intros H; exfalso; auto].
  - rewrite IH. split; [intros H [H1|H1]; auto | tauto].
    subst; rewrite str_eqb_refl in E; discriminate.
Qed.

Lemma dict_set_In (k : pystr) (v : pyval) (d : dict) (kv : pystr * pyval) :
  In kv (dict_set k v d) -> kv = (k, v) \/ In kv d.
Proof.
  induction d as [|[k' v'] d IH]; simpl.
  - intros [H|[]]; auto.
  - destruct (str_eqb k k') eqn:E; simpl.
    + apply str_eqb_eq in E; subst. intros [H|H]; auto.
    + intros [H|H]; auto. destruct (IH H); auto.
Qed.

Lemma dict_del_In (k : pystr) (d : dict) (kv : pystr * pyval) :
  In kv (dict_del k d) -> In kv d.
Proof.
  induction d as [|[k' v'] d IH]; simpl; auto.
  destruct (str_eqb k k'); simpl; intuition.
Qed.

Lemma dict_del_set (k : pystr) (v : pyval) (d : dict) :
  dict_del k (dict_set k v d) = dict_del k d.
Proof.
  induction d as [|[k' v'] d IH]; simpl.
  - now rewrite str_eqb_refl.
  - destruct (str_eqb k k') eqn:E; simpl; rewrite E; [reflexivity|].
    now rewrite IH.
Qed.

Lemma keys_dict_set (k : pystr) (v : pyval) (d : dict) :
  keys (dict_set k v d) = if dict_mem k d then keys d else keys d ++ [k].
Proof.
  unfold dict_mem; induction d as [|[k' v'] d IH]; simpl; [reflexivity|].
  destruct (str_eqb k k') eqn:E; simpl; [reflexivity|].
  rewrite IH; destruct (dict_get k d); reflexivity.
Qed.

Lemma dict_wf_set (k : pystr) (v : pyval) (d : dict) :
  dict_wf d -> dict_wf (dict_set k v d).
Proof.
  unfold dict_wf; intros H; rewrite keys_dict_set.
  unfold dict_mem; destruct (dict_get k d) eqn:E; [assumption|].
  apply dict_get_None_keys in E.
  apply NoDup_rev in H. rewrite <- (rev_involutive (keys d ++ [k])).
  apply NoDup_rev. rewrite rev_app_distr; simpl.
  constructor; [rewrite <- in_rev; assumption | assumption].
Qed.

Lemma keys_dict_del_incl (k k' : pystr) (d : dict) :
  In k' (keys (dict_del k d)) -> In k' (keys d).
Proof.
  unfold keys; rewrite !in_map_iff; intros [kv [H1 H2]].
  exists kv; split; [assumption | eapply dict_del_In; eassumption].
Qed.

Lemma dict_wf_del (k : pystr) (d : dict) :
  dict_wf d -> dict_wf (dict_del k d).
Proof.
  unfold dict_wf; induction d as [|[k' v'] d IH]; simpl; intros H; [assumption|].
  inversion H as [|? ? Hn Hd]; subst.
  destruct (str_eqb k k'); simpl; [assumption|].
  constructor; [|auto].
  intros Hin; apply Hn; eapply keys_dict_del_incl; eassumption.
Qed.

Lemma dict_del_absent (k : pystr) (d : dict) :
  dict_wf d -> ~ In k (keys (dict_del k d)).
Proof.
  unfold dict_wf; induction d as [|[k' v'] d IH]; simpl; intros H; [tauto|].
  inversion H as [|? ? Hn Hd]; subst.
  destruct (str_eqb k k') eqn:E; simpl.
  - apply str_eqb_eq in E; subst; assumption.
  - intros [H1|H1]; [subst; rewrite str_eqb_refl in E; discriminate|].
    now apply IH.
Qed.

Lemma dict_get_del_other (k k' : pystr) (d : dict) :
  k <> k' -> dict_get k' (dict_del k d) = dict_get k' d.
Proof.
  intros Hne; induction d as [|[k0 v0] d IH]; simpl; [reflexivity|].
  destruct (str_eqb k k0) eqn:E; simpl.
  - apply str_eqb_eq in E; subst k0. rewrite str_eqb_neq by auto; reflexivity.
  - rewrite IH; reflexivity.
Qed.

(** ** The operations, case by case *)

Ltac unfold_m :=
  unfold add_item, remove_item, get_qty, check_low_items, try_except, handle,
    stock_getitem, stock_setitem, stock_delitem, logs_append,
    logging_info, logging_warning, logging_error, logging,
    bind, gets, lift, modify, ret, raise.

Lemma add_item_rejected (item qty : pyval) (logs : option nat) (w : world) :
  isinstance_str item = false \/ isinstance_int qty = false ->
  add_item item qty logs w =
  (Return tt,
   set_log (inventory_log w ++
            [mkLog WARNING "Invalid data types for add_item: item=%s, qty=%s"
               [AVal item; AVal qty]]) w).
Proof.
  intros [H|H].
  - destruct item; try discriminate H; reflexivity.
  - destruct item; try reflexivity.
    unfold add_item; rewrite H; reflexivity.
Qed.

Lemma add_item_accepted (name : pystr) (qty v : pyval) (logs : option nat)
    (w : world) :
  isinstance_int qty = true ->
  py_add (current name (stock_data w)) qty = Return v ->
  fst (add_item (VStr name) qty logs w) = Return tt /\
  stock_data (snd (add_item (VStr name) qty logs w))
    = dict_set name v (stock_data w) /\
  inventory_log (snd (add_item (VStr name) qty logs w))
    = inventory_log w ++
      [mkLog INFO "Added %d of %s to inventory." [AVal qty; AVal (VStr name)]].
Proof.
  intros Hq Hadd. unfold current in Hadd.
  unfold_m. rewrite Hq. cbn -[py_add]. rewrite Hadd.
  destruct logs; cbn; auto.
Qed.

Lemma add_item_raises (name : pystr) (qty : pyval) (e : exn) (logs : option nat)
    (w : world) :
  isinstance_int qty = true ->
  py_add (current name (stock_data w)) qty = Raise e ->
  add_item (VStr name) qty logs w = (Raise e, w).
Proof.
  intros Hq Hadd. unfold current in Hadd.
  unfold_m. rewrite Hq. cbn -[py_add]. rewrite Hadd. reflexivity.
Qed.

Lemma remove_item_absent (item qty : pyval) (w : world) :
  py_in item (stock_data w) = Return false ->
  remove_item item qty w =
  (Return tt,
   set_log (inventory_log w ++
            [mkLog WARNING "Attempted to remove non-existent item: %s"
               [AVal item]]) w).
Proof.
  unfold py_in. intros H. unfold_m.
  destruct (hash_key item) as [k|e]; [|discriminate H].
  cbn in *. injection H as H. rewrite H.
  destruct k; reflexivity.
Qed.

Lemma remove_item_unhashable (item qty : pyval) (w : world) :
  hash_key item = Raise TypeError ->
  remove_item item qty w =
  (Return tt,
   set_log (inventory_log w ++
            [mkLog ERROR "Error removing item %s: %s"
               [AVal item; AExc TypeError]]) w).
Proof. intros H. unfold_m. rewrite H. reflexivity. Qed.

(** A decrement that raises leaves before the store; the handler decides. *)
Lemma remove_item_faults (name : pystr) (cur qty : pyval) (e : exn) (w : world) :
  dict_get name (stock_data w) = Some cur ->
  py_sub cur qty = Raise e ->
  remove_item (VStr name) qty w =
  if catches [CKeyError; CTypeError] e then
    (Return tt,
     set_log (inventory_log w ++
              [mkLog ERROR "Error removing item %s: %s"
                 [AVal (VStr name); AExc e]]) w)
  else (Raise e, w).
Proof.
  intros Hget Hsub. unfold_m. cbn -[py_sub py_le_int catches]. unfold dict_mem.
  rewrite !Hget. cbn -[py_sub py_le_int catches]. rewrite Hsub. destruct (catches _ e); reflexivity.
Qed.

(** A decrement that succeeds is stored, then compared with zero. *)
Lemma remove_item_stored (name : pystr) (cur qty v : pyval) (le : bool)
    (w : world) :
  dict_get name (stock_data w) = Some cur ->
  py_sub cur qty = Return v ->
  py_le_int v 0 = Return le ->
  remove_item (VStr name) qty w =
  if le then
    (Return tt,
     set_log (inventory_log w ++
              [mkLog INFO "Removed %s completely from inventory."
                 [AVal (VStr name)]])
       (set_stock (dict_del name (stock_data w)) w))
  else
    (Return tt,
     set_log (inventory_log w ++
              [mkLog INFO "Removed %d of %s from inventory."
                 [AVal qty; AVal (VStr name)]])
       (set_stock (dict_set name v (stock_data w)) w)).
Proof.
  intros Hget Hsub Hle. unfold_m. cbn -[py_sub py_le_int catches]. unfold dict_mem.
  rewrite !Hget. cbn -[py_sub py_le_int]. rewrite Hsub. cbn -[py_le_int]. rewrite dict_get_set_same, Hle.
  destruct le; cbn.
  - rewrite dict_get_set_same. cbn. rewrite dict_del_set. reflexivity.
  - reflexivity.
Qed.

Lemma get_qty_text (name : pystr) (w : world) :
  get_qty (VStr name) w =
  (Return (match dict_get name (stock_data w) with
           | Some v => v
           | None => VNone
           end), w).
Proof. reflexivity. Qed.

(** ** Comparison of integers *)

Lemma py_le_int_VInt (x z : Z) : py_le_int (VInt x) z = Return (x <=? z).
Proof.
  unfold py_le_int, py_compare_int, Z.leb; simpl.
  destruct (x ?= z); reflexivity.
Qed.

Lemma py_lt_int_VInt (x z : Z) : py_lt_int (VInt x) z = Return (x <? z).
Proof.
  unfold py_lt_int, py_compare_int, Z.ltb; simpl.
  destruct (x ?= z); reflexivity.
Qed.

Lemma py_sub_int (x : Z) (qty : pyval) (y : Z) :
  as_num qty = Some (NInt y) -> py_sub (VInt x) qty = Return (VInt (x - y)).
Proof. intros H; unfold py_sub; simpl; rewrite H; reflexivity. Qed.

Lemma py_add_int (x : Z) (qty : pyval) (y : Z) :
  as_num qty = Some (NInt y) -> py_add (VInt x) qty = Return (VInt (x + y)).
Proof. intros H; unfold py_add; simpl; rewrite H; reflexivity. Qed.

Lemma isinstance_int_num (qty : pyval) :
  isinstance_int qty = true -> exists y, as_num qty = Some (NInt y).
Proof. destruct qty; try discriminate; simpl; eauto. Qed.

(** Subtracting something that is not a number from an int is a TypeError. *)
Lemma py_sub_mismatch (x : Z) (qty : pyval) :
  as_num qty = None -> py_sub (VInt x) qty = Raise TypeError.
Proof. intros H; unfold py_sub; simpl; rewrite H; reflexivity. Qed.

(** ** C1: positivity of the stored quantities *)

Lemma all_positive_set (k : pystr) (z : Z) (d : dict) :
  0 < z -> all_positive d -> all_positive (dict_set k (VInt z) d).
Proof.
  intros Hz Hd k' v' Hin. apply dict_set_In in Hin as [H|H].
  - injection H as -> ->. exists z; auto.
  - eapply Hd; eassumption.
Qed.

Lemma all_positive_del (k : pystr) (d : dict) :
  all_positive d -> all_positive (dict_del k d).
Proof. intros Hd k' v' Hin. eapply Hd, dict_del_In; eassumption. Qed.

Lemma current_positive (name : pystr) (d : dict) :
  all_positive d -> exists z, current name d = VInt z /\ 0 <= z.
Proof.
  intros Hd. unfold current. destruct (dict_get name d) eqn:E.
  - apply dict_get_In in E. destruct (Hd _ _ E) as [z [-> Hz]].
    exists z; split; [reflexivity | lia].
  - exists 0; split; [reflexivity | lia].
Qed.

Lemma add_item_positive (item qty : pyval) (logs : option nat) (w : world) :
  admissible (OpAdd item qty logs) = true ->
  all_positive (stock_data w) ->
  all_positive (stock_data (snd (add_item item qty logs w))).
Proof.
  intros Hadm Hinv.
  destruct (isinstance_str item) eqn:Hi; [destruct (isinstance_int qty) eqn:Hq|].
  - destruct item; try discriminate Hi.
    destruct (isinstance_int_num _ Hq) as [y Hy].
    simpl in Hadm. rewrite Hq, Hy in Hadm. apply Z.ltb_lt in Hadm.
    destruct (current_positive s _ Hinv) as [z [Hc Hz]].
    destruct (add_item_accepted s qty (VInt (z + y)) logs w Hq) as [_ [H _]].
    { rewrite Hc. now apply py_add_int. }
    rewrite H. apply all_positive_set; [lia | assumption].
  - rewrite add_item_rejected by auto. assumption.
  - rewrite add_item_rejected by auto. assumption.
Qed.

Lemma remove_item_positive (item qty : pyval) (w : world) :
  admissible (OpRemove item qty) = true ->
  all_positive (stock_data w) ->
  all_positive (stock_data (snd (remove_item item qty w))).
Proof.
  intros Hadm Hinv.
  destruct (hash_key item) as [[name|]|e] eqn:Hk.
  - destruct item; try discriminate Hk. injection Hk as ->.
    destruct (dict_get name (stock_data w)) as [cur|] eqn:Hget.
    + destruct (Hinv _ _ (dict_get_In _ _ _ Hget)) as [z [-> Hz]].
      destruct (as_num qty) as [[y|f]|] eqn:Hn.
      * rewrite (remove_item_stored name (VInt z) qty (VInt (z - y)) (z - y <=? 0))
          by (auto using py_sub_int, py_le_int_VInt).
        destruct (z - y <=? 0) eqn:Hle; simpl.
        -- now apply all_positive_del.
        -- apply Z.leb_gt in Hle. now apply all_positive_set.
      * destruct qty; discriminate.
      * rewrite (remove_item_faults name (VInt z) qty TypeError)
          by (auto using py_sub_mismatch).
        assumption.
    + rewrite remove_item_absent; [assumption|].
      unfold py_in, key_mem, dict_mem; simpl. now rewrite Hget.
  - rewrite remove_item_absent; [assumption|].
    unfold py_in; rewrite Hk; reflexivity.
  - destruct item; try discriminate Hk; injection Hk as <-;
      rewrite remove_item_unhashable by reflexivity; assumption.
Qed.

Lemma run_ops_positive (ops : list op) (w : world) :
  forallb admissible ops = true ->
  all_positive (stock_data w) ->
  all_positive (stock_data (run_ops ops w)).
Proof.
  revert w; induction ops as [|o ops IH]; intros w Hadm Hinv; [assumption|].
  simpl in Hadm. apply andb_true_iff in Hadm as [Ho Hops].
  unfold run_ops; simpl. apply IH; [assumption|].
  destruct o; simpl; auto using add_item_positive, remove_item_positive.
Qed.

(** C1 (as stated, refuted): [add_item] only type-checks [qty], so adding
    zero or a negative amount to the empty table leaves a key whose quantity
    is not strictly positive. *)
Lemma C1_nonpositive_quantity_kept :
  stock_data (run_ops [OpAdd (VStr (py "widget")) (VInt 0) None] initial_world)
    = [(py "widget", VInt 0)] /\
  stock_data (run_ops [OpAdd (VStr (py "widget")) (VInt (-5)) None] initial_world)
    = [(py "widget", VInt (-5))] /\
  ~ all_positive
      (stock_data (run_ops [OpAdd (VStr (py "widget")) (VInt 0) None] initial_world)).
Proof.
  split; [reflexivity | split; [reflexivity|]].
  intros H. destruct (H (py "widget") (VInt 0)) as [z [Hz Hpos]].
  - left; reflexivity.
  - injection Hz as <-. lia.
Qed.

(** C1 (amended): starting from an empty stock table, after any sequence of
    [add_item] and [remove_item] calls in which every [add_item] that passes
    the type check adds a strictly positive amount and no [remove_item] is
    given a float, every key of the table holds a strictly positive
    integer. *)
Theorem C1_positive_quantities (ops : list op) (w : world) :
  stock_data w = [] ->
  forallb admissible ops = true ->
  forall k v, In (k, v) (stock_data (run_ops ops w)) -> positive_int v.
Proof.
  intros Hempty Hadm. apply run_ops_positive; [assumption|].
  rewrite Hempty. intros k v [].
Qed.

Lemma C1_positive_quantities_witness :
  stock_data initial_world = [] /\
  forallb admissible
    [OpAdd (VStr (py "apple")) (VInt 10) None;
     OpRemove (VStr (py "apple")) (VInt 3);
     OpAdd (VInt 4) (VInt 0) None;
     OpRemove (VStr (py "apple")) VNone] = true /\
  forall k v,
    In (k, v)
      (stock_data
         (run_ops
            [OpAdd (VStr (py "apple")) (VInt 10) None;
             OpRemove (VStr (py "apple")) (VInt 3);
             OpAdd (VInt 4) (VInt 0) None;
             OpRemove (VStr (py "apple")) VNone] initial_world)) ->
    positive_int v.
Proof.
  split; [reflexivity | split; [reflexivity|]].
  apply (C1_positive_quantities _ initial_world); reflexivity.
Defined.

(** ** C2: accumulated quantity *)

Lemma add_item_int_get (item : pystr) (q : Z) (logs : option nat) (w : world) :
  forall a, current item (stock_data w) = VInt a ->
  dict_get item (stock_data (snd (add_item (VStr item) (VInt q) logs w)))
    = Some (VInt (a + q)).
Proof.
  intros a Ha.
  destruct (add_item_accepted item (VInt q) (VInt (a + q)) logs w) as [_ [H _]];
    [reflexivity | now rewrite Ha |].
  rewrite H. apply dict_get_set_same.
Qed.

Lemma adds_get (item : pystr) (qtys : list Z) :
  forall (w : world) (a : Z),
  dict_get item (stock_data w) = Some (VInt a) ->
  dict_get item (stock_data (run_ops (adds item qtys) w))
    = Some (VInt (a + total qtys)).
Proof.
  induction qtys as [|q qtys IH]; intros w a Ha.
  - change (total []) with 0. rewrite Z.add_0_r. assumption.
  - change (run_ops (adds item (q :: qtys)) w)
      with (run_ops (adds item qtys)
              (snd (add_item (VStr item) (VInt q) None w))).
    change (total (q :: qtys)) with (q + total qtys).
    rewrite (IH _ (a + q)); [f_equal; f_equal; lia|].
    apply add_item_int_get. unfold current; now rewrite Ha.
Qed.

(** C2: for a text [item] that the table does not hold yet, after the calls
    [add_item(item, q1)], ..., [add_item(item, qn)] (n >= 1, every [qi] a
    positive integer) [get_qty(item)] returns [q1 + ... + qn]. *)
Theorem C2_add_then_get_qty_is_sum (item : pystr) (qtys : list Z) (w : world) :
  dict_get item (stock_data w) = None ->
  qtys <> [] ->
  Forall (fun q => 0 < q) qtys ->
  get_qty (VStr item) (run_ops (adds item qtys) w)
    = (Return (VInt (total qtys)), run_ops (adds item qtys) w).
Proof.
  intros Hnone Hne _. rewrite get_qty_text.
  destruct qtys as [|q qtys]; [contradiction|].
  change (run_ops (adds item (q :: qtys)) w)
    with (run_ops (adds item qtys)
            (snd (add_item (VStr item) (VInt q) None w))).
  rewrite (adds_get item qtys _ (0 + q)).
  - reflexivity.
  - apply add_item_int_get. unfold current; now rewrite Hnone.
Qed.

Lemma C2_add_then_get_qty_is_sum_witness :
  dict_get (py "apple") (stock_data initial_world) = None /\
  [10; 5; 2] <> [] /\
  Forall (fun q => 0 < q) [10; 5; 2] /\
  get_qty (VStr (py "apple")) (run_ops (adds (py "apple") [10; 5; 2]) initial_world)
    = (Return (VInt (total [10; 5; 2])),
       run_ops (adds (py "apple") [10; 5; 2]) initial_world).
Proof.
  assert (H1 : dict_get (py "apple") (stock_data initial_world) = None)
    by reflexivity.
  assert (H2 : [10; 5; 2] <> @nil Z) by discriminate.
  assert (H3 : Forall (fun q => 0 < q) [10; 5; 2])
    by (repeat constructor).
  exact (conj H1 (conj H2 (conj H3
    (C2_add_then_get_qty_is_sum (py "apple") [10; 5; 2] initial_world H1 H2 H3)))).
Defined.

(** ** C3: removing from a present item *)

(** C3: for an item held with integer quantity [v] and an integer [q],
    [remove_item(item, q)] returns normally; when [q >= v] the key is deleted
    ([get_qty] gives None and the key is no longer in the table), otherwise
    the quantity becomes [v - q] and the key stays.  Other keys keep their
    quantities. *)
Theorem C3_remove_item_present (item : pystr) (v q : Z) (w : world) :
  dict_wf (stock_data w) ->
  dict_get item (stock_data w) = Some (VInt v) ->
  let r := remove_item (VStr item) (VInt q) w in
  fst r = Return tt /\
  (v <= q ->
     stock_data (snd r) = dict_del item (stock_data w) /\
     fst (get_qty (VStr item) (snd r)) = Return VNone /\
     ~ In item (keys (stock_data (snd r)))) /\
  (q < v ->
     stock_data (snd r) = dict_set item (VInt (v - q)) (stock_data w) /\
     fst (get_qty (VStr item) (snd r)) = Return (VInt (v - q)) /\
     In item (keys (stock_data (snd r)))) /\
  (forall other, other <> item ->
     dict_get other (stock_data (snd r)) = dict_get other (stock_data w)).
Proof.
  intros Hwf Hget r. subst r.
  rewrite (remove_item_stored item (VInt v) (VInt q) (VInt (v - q)) (v - q <=? 0))
    by (auto using py_le_int_VInt).
  destruct (v - q <=? 0) eqn:Hle; simpl;
    [apply Z.leb_le in Hle | apply Z.leb_gt in Hle];
    (split; [reflexivity|]);
    (split; [intros Hvq | split; [intros Hqv | intros other Hne]]);
    try (exfalso; lia).
  - assert (Hn : ~ In item (keys (dict_del item (stock_data w))))
      by now apply dict_del_absent.
    split; [reflexivity | split; [|assumption]].
    apply dict_get_None_keys in Hn. now rewrite Hn.
  - apply dict_get_del_other; auto.
  - split; [reflexivity | split; [now rewrite dict_get_set_same|]].
    assert (Hs : dict_get item (dict_set item (VInt (v - q)) (stock_data w))
                 <> None) by (rewrite dict_get_set_same; discriminate).
    destruct (in_dec (list_eq_dec N.eq_dec) item
                (keys (dict_set item (VInt (v - q)) (stock_data w))))
      as [Hin|Hnin]; [assumption|].
    apply dict_get_None_keys in Hnin. contradiction.
  - apply dict_get_set_other; auto.
Qed.

Lemma C3_remove_item_present_witness :
  let w := set_stock [(py "apple", VInt 10); (py "pear", VInt 4)] initial_world in
  dict_wf (stock_data w) /\
  dict_get (py "apple") (stock_data w) = Some (VInt 10) /\
  stock_data (snd (remove_item (VStr (py "apple")) (VInt 12) w))
    = [(py "pear", VInt 4)].
Proof.
  intros w.
  assert (Hwf : dict_wf (stock_data w)).
  { repeat constructor; simpl; intuition discriminate. }
  assert (Hget : dict_get (py "apple") (stock_data w) = Some (VInt 10))
    by reflexivity.
  split; [exact Hwf | split; [exact Hget|]].
  destruct (C3_remove_item_present (py "apple") 10 12 w Hwf Hget)
    as [_ [Hdel _]].
  destruct Hdel as [H _]; [lia | exact H].
Defined.

(** ** C4: rejected arguments of [add_item] *)



(** ** C5: removing an absent item *)

(** C5: when [item in stock_data] is false, [remove_item(item, qty)] returns
    normally for every [qty], leaves the stock table as it was and records
    one warning. *)
Theorem C5_remove_item_absent (item qty : pyval) (w : world) :
  py_in item (stock_data w) = Return false ->
  let r := remove_item item qty w in
  fst r = Return tt /\
  stock_data (snd r) = stock_data w /\
  inventory_log (snd r)
    = inventory_log w ++
      [mkLog WARNING "Attempted to remove non-existent item: %s" [AVal item]].
Proof.
  intros H r. subst r. rewrite remove_item_absent by assumption.
  repeat split.
Qed.

Lemma C5_remove_item_absent_witness :
  let w := set_stock [(py "apple", VInt 10)] initial_world in
  py_in (VStr (py "mango")) (stock_data w) = Return false /\
  stock_data (snd (remove_item (VStr (py "mango")) (VInt 1) w)) = stock_data w.
Proof.
  intros w.
  assert (H : py_in (VStr (py "mango")) (stock_data w) = Return false)
    by reflexivity.
  split; [exact H|].
  exact (proj1 (proj2 (C5_remove_item_absent (VStr (py "mango")) (VInt 1) w H))).
Defined.

(** ** C6: low-stock report *)

Lemma low_items_of_ints (threshold : Z) (t : list (pystr * Z)) :
  low_items threshold (of_ints t)
    = Return (map fst (filter (fun kv => snd kv <? threshold) t)).
Proof.
  induction t as [|[k x] t IH]; [reflexivity|].
  change (of_ints ((k, x) :: t)) with ((k, VInt x) :: of_ints t).
  cbn [low_items filter snd].
  rewrite py_lt_int_VInt. cbn [obind]. rewrite IH. cbn [obind].
  destruct (x <? threshold); reflexivity.
Qed.

Lemma filter_all {A : Type} (f : A -> bool) (l : list A) :
  (forall x, In x l -> f x = true) -> filter f l = l.
Proof.
  induction l as [|a l IH]; intros H; simpl; [reflexivity|].
  rewrite (H a) by (left; reflexivity). f_equal. apply IH.
  intros x Hx. apply H. now right.
Qed.

Lemma filter_none {A : Type} (f : A -> bool) (l : list A) :
  (forall x, In x l -> f x = false) -> filter f l = [].
Proof.
  induction l as [|a l IH]; intros H; simpl; [reflexivity|].
  rewrite (H a) by (left; reflexivity). apply IH.
  intros x Hx. apply H. now right.
Qed.

(** C6: on a table of integer quantities and for an integer [threshold],
    [check_low_items(threshold)] returns the items whose quantity is strictly
    below the threshold, in the order of the table, and leaves the world as it
    was; the result is every item when the threshold exceeds every quantity
    and the empty list when no quantity is below the threshold. *)
Theorem C6_check_low_items (threshold : Z) (t : list (pystr * Z)) (w : world) :
  let w0 := set_stock (of_ints t) w in
  check_low_items threshold w0
    = (Return (map fst (filter (fun kv => snd kv <? threshold) t)), w0) /\
  ((forall kv, In kv t -> snd kv < threshold) ->
     check_low_items threshold w0 = (Return (map fst t), w0)) /\
  ((forall kv, In kv t -> threshold <= snd kv) ->
     check_low_items threshold w0 = (Return [], w0)).
Proof.
  intros w0.
  assert (H : check_low_items threshold w0
              = (Return (map fst (filter (fun kv => snd kv <? threshold) t)), w0)).
  { unfold check_low_items, bind, gets, lift. subst w0.
    cbn [stock_data set_stock]. now rewrite low_items_of_ints. }
  split; [exact H | split; intros Hall; rewrite H].
  - rewrite filter_all; [reflexivity|].
    intros kv Hin. apply Z.ltb_lt. auto.
  - rewrite filter_none; [reflexivity|].
    intros kv Hin. apply Z.ltb_ge. auto.
Qed.

Lemma C6_check_low_items_witness :
  let t := [(py "apple", 7); (py "banana", 2); (py "orange", 1)] in
  let w0 := set_stock (of_ints t) initial_world in
  check_low_items 5 w0 = (Return [py "banana"; py "orange"], w0) /\
  (forall kv, In kv t -> snd kv < 8) /\
  check_low_items 8 w0 = (Return [py "apple"; py "banana"; py "orange"], w0) /\
  (forall kv, In kv t -> 1 <= snd kv) /\
  check_low_items 1 w0 = (Return [], w0).
Proof.
  intros t w0.
  assert (H8 : forall kv, In kv t -> snd kv < 8).
  { intros kv [<-|[<-|[<-|[]]]]; simpl; lia. }
  assert (H1 : forall kv, In kv t -> 1 <= snd kv).
  { intros kv [<-|[<-|[<-|[]]]]; simpl; lia. }
  split; [exact (proj1 (C6_check_low_items 5 t initial_world))|].
  split; [exact H8|].
  split; [exact (proj1 (proj2 (C6_check_low_items 8 t initial_world)) H8)|].
  split; [exact H1|].
  exact (proj2 (proj2 (C6_check_low_items 1 t initial_world)) H1).
Defined.

(** ** C9: [remove_item] given a quantity of the wrong type *)

(** A quantity that is no number at all (None, text, a list, a dict) makes
    the decrement raise TypeError before anything is stored; the handler logs
    the error and the table is as before. *)
Lemma remove_item_type_mismatch (item : pystr) (v : Z) (qty : pyval) (w : world) :
  dict_get item (stock_data w) = Some (VInt v) ->
  as_num qty = None ->
  remove_item (VStr item) qty w =
  (Return tt,
   set_log (inventory_log w ++
            [mkLog ERROR "Error removing item %s: %s"
               [AVal (VStr item); AExc TypeError]]) w).
Proof.
  intros Hget Hn.
  rewrite (remove_item_faults item (VInt v) qty TypeError)
    by (auto using py_sub_mismatch).
  reflexivity.
Qed.

(** C9 (the code at the failing input): after [add_item("apple", 10)], the
    call [remove_item("apple", 1.5)] raises nothing that the handler could
    catch: no error is logged and the table now holds the float 8.5. *)
Lemma C9_float_qty_is_subtracted :
  let w := run_ops [OpAdd (VStr (py "apple")) (VInt 10) None] initial_world in
  stock_data w = [(py "apple", VInt 10)] /\
  remove_item (VStr (py "apple")) (VFloat 1.5) w =
  (Return tt,
   set_log (inventory_log w ++
            [mkLog INFO "Removed %d of %s from inventory."
               [AVal (VFloat 1.5); AVal (VStr (py "apple"))]])
     (set_stock [(py "apple", VFloat 8.5)] w)).
Proof. split; vm_compute; reflexivity. Qed.

(** With a float quantity the conversion of a large stored integer raises
    OverflowError, which the handler does not name: it reaches the caller. *)
Lemma remove_item_overflow_escapes :
  let w := run_ops [OpAdd (VStr (py "apple")) (VInt (10 ^ 400)) None] initial_world in
  remove_item (VStr (py "apple")) (VFloat 1.5) w = (Raise OverflowError, w).
Proof. vm_compute; reflexivity. Qed.

(** ** C10: a boolean quantity *)

(** C10: [True] passes the integer type check of [add_item]: for an item
    held with quantity [n], [add_item(item, True)] returns normally, records
    the informational record only (no warning) and leaves the item with
    quantity [n + 1]. *)
Theorem C10_add_item_bool_qty (item : pystr) (n : Z) (logs : option nat)
    (w : world) :
  dict_get item (stock_data w) = Some (VInt n) ->
  let r := add_item (VStr item) (VBool true) logs w in
  fst r = Return tt /\
  stock_data (snd r) = dict_set item (VInt (n + 1)) (stock_data w) /\
  dict_get item (stock_data (snd r)) = Some (VInt (n + 1)) /\
  inventory_log (snd r)
    = inventory_log w ++
      [mkLog INFO "Added %d of %s to inventory."
         [AVal (VBool true); AVal (VStr item)]].
Proof.
  intros Hget r. subst r.
  destruct (add_item_accepted item (VBool true) (VInt (n + 1)) logs w)
    as [H1 [H2 H3]].
  - reflexivity.
  - unfold current; rewrite Hget. reflexivity.
  - rewrite H2. rewrite dict_get_set_same. auto.
Qed.

Lemma C10_add_item_bool_qty_witness :
  let w := set_stock [(py "apple", VInt 10)] initial_world in
  dict_get (py "apple") (stock_data w) = Some (VInt 10) /\
  stock_data (snd (add_item (VStr (py "apple")) (VBool true) None w))
    = [(py "apple", VInt 11)].
Proof.
  intros w.
  assert (H : dict_get (py "apple") (stock_data w) = Some (VInt 10))
    by reflexivity.
  split; [exact H|].
  exact (proj1 (proj2 (C10_add_item_bool_qty (py "apple") 10 None w H))).
Defined.

(** ** The scenario of the specification *)

Example scenario :
  let w :=
    run_ops
      [OpAdd (VStr (py "apple")) (VInt 10) None;
       OpAdd (VStr (py "banana")) (VInt 2) None;
       OpAdd (VStr (py "orange")) (VInt 1) None;
       OpRemove (VStr (py "apple")) (VInt 3);
       OpRemove (VStr (py "mango")) (VInt 1)] initial_world in
  fst (get_qty (VStr (py "apple")) w) = Return (VInt 7) /\
  fst (get_qty (VStr (py "banana")) w) = Return (VInt 2) /\
  fst (get_qty (VStr (py "orange")) w) = Return (VInt 1) /\
  fst (get_qty (VStr (py "mango")) w) = Return VNone /\
  fst (check_low_items 5 w) = Return [py "banana"; py "orange"].
Proof. repeat split. Qed.

(** ** JSON strings: what is written is what is read *)

Section JsonStrings.
Local Open Scope N_scope.
Import json.











End JsonStrings.

(** ** JSON numbers: the decimal text of an integer *)

Section JsonNumbers.
Local Open Scope N_scope.
Import json.













Section Scan.
Variable parse_float : pystr -> float.






End Scan.
End JsonNumbers.

(** ** JSON objects: a table of integers is read back as written *)

Section JsonObjects.
Local Open Scope N_scope.
Import json.

Variable floatstr : float -> pystr.
Variable parse_float : pystr -> float.


End JsonObjects.

(** ** Reading back what was written *)

Section RoundTrip.
Local Open Scope N_scope.
Import json.

Variable floatstr : float -> pystr.
Variable parse_float : pystr -> float.










(** *** The text is plain ASCII *)











End RoundTrip.

(** ** [save_data] and [load_data] *)

Section Persist.

Variable floatstr : float -> pystr.
Variable parse_float : pystr -> float.

Ltac unfold_io :=
  unfold load_data, save_data, try_except, handle, open_read, open_write,
    write_text, put_node, logging_info, logging_warning, logging_error,
    logging, bind, gets, lift, modify, ret, raise.


(** A path that names nothing: warning, empty mapping. *)
Lemma load_data_missing (file : pystr) (creatable : bool) (w : world) :
  file_node file (files w) = NoEntry creatable ->
  load_data parse_float file w =
  (Return (VDict []),
   set_log (inventory_log w ++
            [mkLog WARNING "File %s not found. Starting with an empty inventory."
               [AVal (VStr file)]]) w).
Proof. intros H. unfold_io. rewrite H. reflexivity. Qed.

(** A readable file whose text is not a JSON document: error, empty
    mapping. *)
Lemma load_data_invalid_json (file : pystr) (writable : bool)
    (content : list N) (text : pystr) (w : world) :
  file_node file (files w) = Regular true writable content ->
  textio.read_text content = Return text ->
  json.loads parse_float text = Raise JSONDecodeError ->
  load_data parse_float file w =
  (Return (VDict []),
   set_log (inventory_log w ++
            [mkLog ERROR "Error decoding JSON file %s: %s"
               [AVal (VStr file); AExc JSONDecodeError]]) w).
Proof.
  intros H Hread Hloads. unfold_io. rewrite H. cbn -[json.loads textio.read_text].
  rewrite Hread, Hloads. reflexivity.
Qed.


(** Whatever else [open] or the decoding of the bytes raises goes on to the
    caller, with nothing logged. *)
Lemma load_data_escapes (file : pystr) (e : exn) (w : world) :
  fst (open_read file w) = Raise e \/
  (exists content,
     fst (open_read file w) = Return content /\
     textio.read_text content = Raise e) ->
  catches [CFileNotFoundError] e = false ->
  catches [CJSONDecodeError] e = false ->
  load_data parse_float file w = (Raise e, w).
Proof.
  unfold_io. intros H H1 H2.
  destruct (file_node file (files w)) as [c| |r wr content];
    cbn -[json.loads textio.read_text catches] in *.
  - destruct H as [H|[content [H _]]]; [|discriminate H].
    injection H as <-. discriminate H1.
  - destruct H as [H|[content [H _]]]; [|discriminate H].
    injection H as <-. reflexivity.
  - destruct r; cbn -[json.loads textio.read_text catches] in *.
    + destruct H as [H|[content' [H Hread]]]; [discriminate H|].
      injection H as <-. rewrite Hread.
      cbn -[catches]. rewrite H1, H2. reflexivity.
    + destruct H as [H|[content' [H _]]]; [|discriminate H].
      injection H as <-. reflexivity.
Qed.


End Persist.

(** ** C7: saving, then loading *)


(** A second way for the round trip to fail: a key made of a high surrogate
    followed by a low surrogate is written as two escapes, which the decoder
    joins into one code point. *)
Lemma save_then_load_joins_surrogates :
  let file := py "inventory.json" in
  let w0 := set_stock [([55357; 56832]%N, VInt 1)] initial_world in
  fst (load_data parse_float_unused file
         (snd (save_data floatstr_unused file w0)))
    = Return (VDict [([128512]%N, VInt 1)]).
Proof. vm_compute. reflexivity. Qed.



(** ** C8: failures of [load_data] *)

(** C8 (the code at the failing input): [load_data] names FileNotFoundError
    and JSONDecodeError only.  At a path that is a directory [open] raises
    IsADirectoryError, which reaches the caller; so do PermissionError for
    an unreadable file and UnicodeDecodeError for bytes that are not
    UTF-8. *)
Lemma C8_load_data_raises :
  let dir := set_files [(py "data", Directory)] initial_world in
  let locked :=
    set_files [(py "inventory.json", Regular false true [123; 125]%N)]
      initial_world in
  let latin1 :=
    set_files [(py "inventory.json", Regular true true [34; 233; 34]%N)]
      initial_world in
  load_data parse_float_unused (py "data") dir = (Raise IsADirectoryError, dir) /\
  load_data parse_float_unused (py "inventory.json") locked
    = (Raise PermissionError, locked) /\
  load_data parse_float_unused (py "inventory.json") latin1
    = (Raise UnicodeDecodeError, latin1).
Proof. repeat split. Qed.

(* ===================================================================== *)
(** * Further properties of the operations *)
(* ===================================================================== *)

(** ** Arithmetic: what can be raised *)

Lemma int_to_float_raises (z : Z) (e : exn) :
  int_to_float z = Raise e -> e = OverflowError.
Proof.
  unfold int_to_float.
  destruct (binary_normalize 53 1024 z 0 false); congruence.
Qed.

Lemma num_arith_returns (iop : Z -> Z -> Z) (fop : float -> float -> float)
    (a b : num) (v : pyval) :
  num_arith iop fop a b = Return v -> exists n, as_num v = Some n.
Proof.
  destruct a as [x|f], b as [y|g]; cbn [num_arith].
  - intros [= <-]. eexists; reflexivity.
  - destruct (int_to_float x); cbn [obind]; [|discriminate].
    intros [= <-]. eexists; reflexivity.
  - destruct (int_to_float y); cbn [obind]; [|discriminate].
    intros [= <-]. eexists; reflexivity.
  - intros [= <-]. eexists; reflexivity.
Qed.

Lemma num_arith_raises (iop : Z -> Z -> Z) (fop : float -> float -> float)
    (a b : num) (e : exn) :
  num_arith iop fop a b = Raise e -> e = OverflowError.
Proof.
  destruct a as [x|f], b as [y|g]; cbn [num_arith]; try discriminate.
  - destruct (int_to_float x) eqn:E; cbn [obind]; [discriminate|].
    intros [= <-]. eapply int_to_float_raises; eassumption.
  - destruct (int_to_float y) eqn:E; cbn [obind]; [discriminate|].
    intros [= <-]. eapply int_to_float_raises; eassumption.
Qed.

Lemma py_add_raises (a b : pyval) (e : exn) :
  py_add a b = Raise e -> e = TypeError \/ e = OverflowError.
Proof.
  unfold py_add.
  destruct (as_num a) as [x|] eqn:Ea; [destruct (as_num b) as [y|] eqn:Eb|].
  - intros H. right. eapply num_arith_raises; eassumption.
  - destruct a; try discriminate Ea; destruct b; try discriminate Eb;
      intros [= <-]; now left.
  - destruct a; try discriminate Ea; destruct b;
      try (intros [= <-]; now left); discriminate.
Qed.

Lemma py_sub_raises (a b : pyval) (e : exn) :
  py_sub a b = Raise e -> e = TypeError \/ e = OverflowError.
Proof.
  unfold py_sub.
  destruct (as_num a) as [x|]; [destruct (as_num b) as [y|]|].
  - intros H. right. eapply num_arith_raises; eassumption.
  - intros [= <-]; now left.
  - intros [= <-]; now left.
Qed.

Lemma py_sub_returns (a b v : pyval) :
  py_sub a b = Return v -> exists n, as_num v = Some n.
Proof.
  unfold py_sub.
  destruct (as_num a) as [x|]; [destruct (as_num b) as [y|]|];
    try discriminate.
  apply num_arith_returns.
Qed.

Lemma py_le_int_num (v : pyval) (n : num) (z : Z) :
  as_num v = Some n -> exists le, py_le_int v z = Return le.
Proof.
  intros H. unfold py_le_int, py_compare_int. rewrite H.
  destruct n; cbn [obind]; eexists; reflexivity.
Qed.

(** ** [add_item]: the world after an accepted call *)

Lemma add_item_accepted_world (name : pystr) (qty v : pyval)
    (logs : option nat) (w : world) :
  isinstance_int qty = true ->
  py_add (current name (stock_data w)) qty = Return v ->
  add_item (VStr name) qty logs w =
  (Return tt,
   set_log (inventory_log w ++
            [mkLog INFO "Added %d of %s to inventory."
               [AVal qty; AVal (VStr name)]])
     (with_entry logs (mkEntry (clock w) qty (VStr name))
        (set_stock (dict_set name v (stock_data w)) w))).
Proof.
  intros Hq Hadd. unfold current in Hadd.
  unfold_m. rewrite Hq. cbn -[py_add]. rewrite Hadd.
  destruct logs; reflexivity.
Qed.

(** ** One call: it returns and logs once, or raises and changes nothing *)

Lemma add_item_step (item qty : pyval) (logs : option nat) (w : world) :
  (exists rec w',
     add_item item qty logs w = (Return tt, w') /\
     inventory_log w' = inventory_log w ++ [rec] /\
     files w' = files w /\ console w' = console w /\ clock w' = clock w)
  \/
  (exists e,
     add_item item qty logs w = (Raise e, w) /\
     (e = TypeError \/ e = OverflowError)).
Proof.
  destruct (isinstance_str item) eqn:Hi; [destruct (isinstance_int qty) eqn:Hq|].
  - destruct item; try discriminate Hi.
    destruct (py_add (current s (stock_data w)) qty) as [v|e] eqn:Hadd.
    + left. rewrite (add_item_accepted_world s qty v logs w Hq Hadd).
      eexists; eexists. split; [reflexivity|].
      destruct logs; cbn; auto.
    + right. exists e. split; [now apply add_item_raises|].
      eapply py_add_raises; eassumption.
  - left. rewrite add_item_rejected by auto.
    eexists; eexists. split; [reflexivity|]. cbn; auto.
  - left. rewrite add_item_rejected by auto.
    eexists; eexists. split; [reflexivity|]. cbn; auto.
Qed.

Lemma remove_item_step (item qty : pyval) (w : world) :
  (exists rec w',
     remove_item item qty w = (Return tt, w') /\
     inventory_log w' = inventory_log w ++ [rec] /\
     files w' = files w /\ console w' = console w /\ clock w' = clock w
     /\ heap w' = heap w)
  \/
  remove_item item qty w = (Raise OverflowError, w).
Proof.
  destruct (hash_key item) as [[name|]|e] eqn:Hk.
  - destruct item; try discriminate Hk. injection Hk as ->.
    destruct (dict_get name (stock_data w)) as [cur|] eqn:Hget.
    + destruct (py_sub cur qty) as [v|e] eqn:Hsub.
      * destruct (py_sub_returns _ _ _ Hsub) as [n Hn].
        destruct (py_le_int_num v n 0 Hn) as [le Hle].
        left. rewrite (remove_item_stored name cur qty v le w Hget Hsub Hle).
        destruct le; eexists; eexists; (split; [reflexivity|]); cbn; auto.
      * destruct (py_sub_raises _ _ _ Hsub) as [->| ->];
          rewrite (remove_item_faults name cur qty _ w Hget Hsub);
          cbn [catches existsb exn_isinstance orb].
        -- left. eexists; eexists. split; [reflexivity|]. cbn; auto.
        -- right. reflexivity.
    + left. rewrite remove_item_absent.
      * eexists; eexists. split; [reflexivity|]. cbn; auto.
      * unfold py_in, key_mem, dict_mem; cbn. now rewrite Hget.
  - left. rewrite remove_item_absent.
    + eexists; eexists. split; [reflexivity|]. cbn; auto.
    + unfold py_in. rewrite Hk. reflexivity.
  - left. assert (e = TypeError) as -> by (destruct item; cbn in Hk; congruence).
    rewrite remove_item_unhashable by assumption.
    eexists; eexists. split; [reflexivity|]. cbn; auto.
Qed.


(** X2: [add_item] has no handler of its own: when the stored quantity of a
    text item is not a number (text or None read from a file, say), a call
    with an integer quantity raises TypeError to the caller and changes
    nothing. *)
Theorem add_item_non_numeric_stock_raises (name : pystr) (cur qty : pyval)
    (logs : option nat) (w : world) :
  dict_get name (stock_data w) = Some cur ->
  as_num cur = None ->
  isinstance_int qty = true ->
  add_item (VStr name) qty logs w = (Raise TypeError, w).
Proof.
  intros Hget Hcur Hq. apply add_item_raises; [assumption|].
  unfold current. rewrite Hget. unfold py_add. rewrite Hcur.
  destruct cur; try discriminate Hcur; destruct qty; try discriminate Hq;
    reflexivity.
Qed.

Lemma add_item_non_numeric_stock_raises_witness :
  let w := set_stock [(py "apple", VStr (py "ten"))] initial_world in
  dict_get (py "apple") (stock_data w) = Some (VStr (py "ten")) /\
  as_num (VStr (py "ten")) = None /\
  isinstance_int (VInt 1) = true /\
  add_item (VStr (py "apple")) (VInt 1) None w = (Raise TypeError, w).
Proof.
  intros w.
  assert (H1 : dict_get (py "apple") (stock_data w) = Some (VStr (py "ten")))
    by reflexivity.
  assert (H2 : as_num (VStr (py "ten")) = None) by reflexivity.
  assert (H3 : isinstance_int (VInt 1) = true) by reflexivity.
  exact (conj H1 (conj H2 (conj H3
    (add_item_non_numeric_stock_raises (py "apple") (VStr (py "ten")) (VInt 1)
       None w H1 H2 H3)))).
Defined.


(** ** Sequences of calls *)

Lemma run_op_step (o : op) (w : world) :
  exists recs,
    inventory_log (snd (run_op o w)) = inventory_log w ++ recs /\
    length recs = (if returned (fst (run_op o w)) then 1 else 0)%nat /\
    files (snd (run_op o w)) = files w /\
    console (snd (run_op o w)) = console w.
Proof.
  destruct o as [item qty logs | item qty]; cbn [run_op].
  - destruct (add_item_step item qty logs w)
      as [[rec [w' [-> [Hl [Hf [Hc _]]]]]] | [e [-> He]]]; cbn [fst snd returned].
    + exists [rec]. auto.
    + exists []. rewrite app_nil_r. auto.
  - destruct (remove_item_step item qty w)
      as [[rec [w' [-> [Hl [Hf [Hc _]]]]]] | ->]; cbn [fst snd returned].
    + exists [rec]. auto.
    + exists []. rewrite app_nil_r. auto.
Qed.

(** X4: the log is append-only under [add_item] and [remove_item]: after any
    sequence of calls the earlier records are still there, followed by
    exactly one new record per call that returned (none for a call that
    raised); the file system and the console are untouched. *)
Theorem run_ops_log_append_only (ops : list op) (w : world) :
  exists recs,
    inventory_log (run_ops ops w) = inventory_log w ++ recs /\
    length recs = length (filter returned (run_ops_outcomes ops w)) /\
    files (run_ops ops w) = files w /\
    console (run_ops ops w) = console w.
Proof.
  revert w. induction ops as [|o ops IH]; intros w.
  - exists []. cbn. rewrite app_nil_r. auto.
  - change (run_ops (o :: ops) w) with (run_ops ops (snd (run_op o w))).
    cbn [run_ops_outcomes filter].
    destruct (run_op_step o w) as [r1 [Hl1 [Hn1 [Hf1 Hc1]]]].
    destruct (IH (snd (run_op o w))) as [r2 [Hl2 [Hn2 [Hf2 Hc2]]]].
    exists (r1 ++ r2). rewrite Hl2, Hl1, Hf2, Hf1, Hc2, Hc1, <- app_assoc.
    repeat split. rewrite length_app, Hn1, Hn2.
    destruct (returned (fst (run_op o w))); reflexivity.
Qed.







(** X6: a call about one item never changes the quantity stored for another
    item, whatever its arguments and outcome. *)
Theorem run_op_leaves_other_items (o : op) (other : pystr) (w : world) :
  op_item o <> VStr other ->
  dict_get other (stock_data (snd (run_op o w))) = dict_get other (stock_data w).
Proof.
  intros Hne. destruct o as [item qty logs | item qty]; cbn [run_op op_item] in *.
  - destruct (isinstance_str item) eqn:Hi;
      [destruct (isinstance_int qty) eqn:Hq|].
    + destruct item; try discriminate Hi.
      destruct (py_add (current s (stock_data w)) qty) as [v|e] eqn:Hadd.
      * rewrite (add_item_accepted_world s qty v logs w Hq Hadd).
        destruct logs; cbn; apply dict_get_set_other; congruence.
      * rewrite (add_item_raises s qty e logs w Hq Hadd). reflexivity.
    + rewrite add_item_rejected by auto. reflexivity.
    + rewrite add_item_rejected by auto. reflexivity.
  - destruct (remove_item_step item qty w) as [Hret | ->]; [|reflexivity].
    destruct (hash_key item) as [[name|]|e] eqn:Hk.
    + destruct item; try discriminate Hk. injection Hk as ->.
      destruct (dict_get name (stock_data w)) as [cur|] eqn:Hget.
      * destruct (py_sub cur qty) as [v|e] eqn:Hsub.
        -- destruct (py_sub_returns _ _ _ Hsub) as [n Hn].
           destruct (py_le_int_num v n 0 Hn) as [le Hle].
           rewrite (remove_item_stored name cur qty v le w Hget Hsub Hle).
           destruct le; cbn;
             [apply dict_get_del_other | apply dict_get_set_other]; congruence.
        -- rewrite (remove_item_faults name cur qty e w Hget Hsub).
           destruct (catches _ e); reflexivity.
      * rewrite remove_item_absent; [reflexivity|].
        unfold py_in, key_mem, dict_mem; simpl. now rewrite Hget.
    + rewrite remove_item_absent; [reflexivity|].
      unfold py_in; rewrite Hk; reflexivity.
    + assert (e = TypeError) as -> by (destruct item; cbn in Hk; congruence).
      rewrite remove_item_unhashable by assumption. reflexivity.
Qed.

Lemma run_op_leaves_other_items_witness :
  let w := set_stock [(py "apple", VInt 10); (py "pear", VInt 4)] initial_world in
  op_item (OpRemove (VStr (py "apple")) (VInt 12)) <> VStr (py "pear") /\
  dict_get (py "pear")
    (stock_data (snd (run_op (OpRemove (VStr (py "apple")) (VInt 12)) w)))
    = dict_get (py "pear") (stock_data w).
Proof.
  intros w.
  assert (H : op_item (OpRemove (VStr (py "apple")) (VInt 12)) <> VStr (py "pear"))
    by discriminate.
  exact (conj H (run_op_leaves_other_items _ (py "pear") w H)).
Defined.

(** ** The caller's list and the order of the table *)

Lemma heap_append_same (r : nat) (e : log_entry) (h : list (list log_entry))
    (l : list log_entry) :
  nth_error h r = Some l -> nth_error (heap_append r e h) r = Some (l ++ [e]).
Proof.
  revert r; induction h as [|l0 h IH]; intros [|r]; cbn; try discriminate.
  - intros [= ->]. reflexivity.
  - apply IH.
Qed.

Lemma heap_append_other (r r' : nat) (e : log_entry)
    (h : list (list log_entry)) :
  r' <> r -> nth_error (heap_append r e h) r' = nth_error h r'.
Proof.
  revert r r'; induction h as [|l0 h IH]; intros [|r] [|r'] Hne; cbn;
    try reflexivity; try congruence.
  apply IH. congruence.
Qed.

(** X7: an accepted [add_item] call appends exactly one entry (time,
    quantity, item) to the list the caller passed as [logs] and leaves every
    other list alone; without [logs] no list of the caller changes. *)
Theorem add_item_appends_to_logs (name : pystr) (qty : pyval) (r : nat)
    (l : list log_entry) (w : world) :
  isinstance_int qty = true ->
  fst (add_item (VStr name) qty (Some r) w) = Return tt ->
  nth_error (heap w) r = Some l ->
  nth_error (heap (snd (add_item (VStr name) qty (Some r) w))) r
    = Some (l ++ [mkEntry (clock w) qty (VStr name)]) /\
  (forall r', r' <> r ->
     nth_error (heap (snd (add_item (VStr name) qty (Some r) w))) r'
       = nth_error (heap w) r') /\
  heap (snd (add_item (VStr name) qty None w)) = heap w.
Proof.
  intros Hq Hret Hl.
  destruct (py_add (current name (stock_data w)) qty) as [v|e] eqn:Hadd.
  - rewrite !(add_item_accepted_world name qty v _ w Hq Hadd). cbn.
    split; [now apply heap_append_same|].
    split; [intros r' Hne; now apply heap_append_other | reflexivity].
  - rewrite (add_item_raises name qty e _ w Hq Hadd) in Hret. discriminate Hret.
Qed.

Lemma add_item_appends_to_logs_witness :
  let w := set_heap [[]; [mkEntry 0 (VInt 1) (VStr (py "pear"))]] initial_world in
  isinstance_int (VInt 10) = true /\
  fst (add_item (VStr (py "apple")) (VInt 10) (Some 1%nat) w) = Return tt /\
  nth_error (heap w) 1 = Some [mkEntry 0 (VInt 1) (VStr (py "pear"))] /\
  nth_error (heap (snd (add_item (VStr (py "apple")) (VInt 10) (Some 1%nat) w))) 1
    = Some [mkEntry 0 (VInt 1) (VStr (py "pear"));
            mkEntry 0 (VInt 10) (VStr (py "apple"))].
Proof.
  intros w.
  assert (H1 : isinstance_int (VInt 10) = true) by reflexivity.
  assert (H2 : fst (add_item (VStr (py "apple")) (VInt 10) (Some 1%nat) w)
               = Return tt) by reflexivity.
  assert (H3 : nth_error (heap w) 1
               = Some [mkEntry 0 (VInt 1) (VStr (py "pear"))]) by reflexivity.
  exact (conj H1 (conj H2 (conj H3
    (proj1 (add_item_appends_to_logs (py "apple") (VInt 10) 1
              [mkEntry 0 (VInt 1) (VStr (py "pear"))] w H1 H2 H3))))).
Defined.

(** X8: [add_item] keeps the iteration order of the table: an item that is
    already there keeps its place, a new item goes last. *)
Theorem add_item_keeps_order (name : pystr) (qty : pyval) (logs : option nat)
    (w : world) :
  isinstance_int qty = true ->
  fst (add_item (VStr name) qty logs w) = Return tt ->
  keys (stock_data (snd (add_item (VStr name) qty logs w)))
    = if dict_mem name (stock_data w)
      then keys (stock_data w)
      else keys (stock_data w) ++ [name].
Proof.
  intros Hq Hret.
  destruct (py_add (current name (stock_data w)) qty) as [v|e] eqn:Hadd.
  - rewrite (add_item_accepted_world name qty v logs w Hq Hadd).
    destruct logs; cbn; apply keys_dict_set.
  - rewrite (add_item_raises name qty e logs w Hq Hadd) in Hret.
    discriminate Hret.
Qed.

Lemma add_item_keeps_order_witness :
  let w := set_stock [(py "apple", VInt 10); (py "pear", VInt 4)] initial_world in
  isinstance_int (VInt 1) = true /\
  fst (add_item (VStr (py "fig")) (VInt 1) None w) = Return tt /\
  keys (stock_data (snd (add_item (VStr (py "fig")) (VInt 1) None w)))
    = [py "apple"; py "pear"; py "fig"].
Proof.
  intros w.
  assert (H1 : isinstance_int (VInt 1) = true) by reflexivity.
  assert (H2 : fst (add_item (VStr (py "fig")) (VInt 1) None w) = Return tt)
    by reflexivity.
  exact (conj H1 (conj H2
    (add_item_keeps_order (py "fig") (VInt 1) None w H1 H2))).
Defined.

Lemma dict_set_set (k : pystr) (v1 v2 : pyval) (d : dict) :
  dict_set k v2 (dict_set k v1 d) = dict_set k v2 d.
Proof.
  induction d as [|[k' v'] d IH]; cbn [dict_set].
  - now rewrite str_eqb_refl.
  - destruct (str_eqb k k') eqn:E; cbn [dict_set]; rewrite E; [reflexivity|].
    now rewrite IH.
Qed.

Lemma dict_set_same (k : pystr) (v : pyval) (d : dict) :
  dict_get k d = Some v -> dict_set k v d = d.
Proof.
  induction d as [|[k' v'] d IH]; cbn [dict_get dict_set]; [discriminate|].
  destruct (str_eqb k k'); [intros [= ->]; reflexivity|].
  intros H. now rewrite IH.
Qed.

Lemma dict_del_none (k : pystr) (d : dict) :
  dict_get k d = None -> dict_del k d = d.
Proof.
  induction d as [|[k' v'] d IH]; cbn [dict_get dict_del]; [reflexivity|].
  destruct (str_eqb k k'); [discriminate|].
  intros H. now rewrite IH.
Qed.

(** X9: [add_item(item, q)] followed by [remove_item(item, q)] puts the
    table back exactly as it was (same entries, same order), for an item that
    was absent or held a strictly positive integer, and any integer [q]. *)
Theorem add_then_remove_restores (name : pystr) (q : Z) (logs : option nat)
    (w : world) :
  dict_get name (stock_data w) = None \/
  (exists z, dict_get name (stock_data w) = Some (VInt z) /\ 0 < z) ->
  stock_data
    (snd (remove_item (VStr name) (VInt q)
            (snd (add_item (VStr name) (VInt q) logs w))))
    = stock_data w.
Proof.
  intros H.
  assert (Hcur : exists a, current name (stock_data w) = VInt a /\
                           (a = 0 /\ dict_get name (stock_data w) = None \/
                            0 < a /\ dict_get name (stock_data w) = Some (VInt a))).
  { unfold current. destruct H as [H|[z [H Hz]]]; rewrite H; eauto 6. }
  destruct Hcur as [a [Hc Ha]].
  rewrite (add_item_accepted_world name (VInt q) (VInt (a + q)) logs w eq_refl)
    by (now rewrite Hc).
  cbn [snd]. set (w1 := set_log _ _).
  assert (Hs1 : stock_data w1 = dict_set name (VInt (a + q)) (stock_data w))
    by (subst w1; destruct logs; reflexivity).
  clearbody w1.
  rewrite (remove_item_stored name (VInt (a + q)) (VInt q) (VInt (a + q - q))
             (a + q - q <=? 0) w1);
    [| rewrite Hs1; apply dict_get_set_same | reflexivity
     | apply py_le_int_VInt].
  replace (a + q - q) with a by lia.
  destruct Ha as [[-> Hnone] | [Hpos Hsome]].
  - cbn. rewrite Hs1, dict_del_set. now apply dict_del_none.
  - replace (a <=? 0) with false by (symmetry; apply Z.leb_gt; lia).
    cbn. rewrite Hs1, dict_set_set. now apply dict_set_same.
Qed.

Lemma add_then_remove_restores_witness :
  let w := set_stock [(py "apple", VInt 10); (py "pear", VInt 4)] initial_world in
  (dict_get (py "apple") (stock_data w) = None \/
   (exists z, dict_get (py "apple") (stock_data w) = Some (VInt z) /\ 0 < z)) /\
  stock_data
    (snd (remove_item (VStr (py "apple")) (VInt 25)
            (snd (add_item (VStr (py "apple")) (VInt 25) None w))))
    = stock_data w.
Proof.
  intros w.
  assert (H : dict_get (py "apple") (stock_data w) = None \/
              (exists z, dict_get (py "apple") (stock_data w) = Some (VInt z)
                         /\ 0 < z)).
  { right. exists 10. split; [reflexivity | lia]. }
  exact (conj H (add_then_remove_restores (py "apple") 25 None w H)).
Defined.

Lemma filter_not_in (k : pystr) (l : list pystr) :
  ~ In k l -> filter (fun k' => negb (str_eqb k k')) l = l.
Proof.
  induction l as [|a l IH]; intros Hn; [reflexivity|].
  cbn [filter]. rewrite str_eqb_neq by (intros ->; apply Hn; now left).
  cbn [negb]. rewrite IH; [reflexivity|]. intros Hin; apply Hn; now right.
Qed.

Lemma keys_dict_del (k : pystr) (d : dict) :
  dict_wf d ->
  keys (dict_del k d) = filter (fun k' => negb (str_eqb k k')) (keys d).
Proof.
  unfold dict_wf. induction d as [|[k' v'] d IH]; intros Hwf; [reflexivity|].
  inversion Hwf as [|? ? Hn Hd]; subst.
  cbn [dict_del keys map fst filter]. destruct (str_eqb k k') eqn:E; cbn [negb].
  - apply str_eqb_eq in E; subst k'. symmetry. now apply filter_not_in.
  - cbn [map fst]. f_equal. now apply IH.
Qed.

(** X10: [remove_item] never reorders the table: when the quantity stays
    positive the keys are exactly as before, and when the item is deleted
    the other keys keep their relative order. *)
Theorem remove_item_keeps_order (name : pystr) (v q : Z) (w : world) :
  dict_wf (stock_data w) ->
  dict_get name (stock_data w) = Some (VInt v) ->
  keys (stock_data (snd (remove_item (VStr name) (VInt q) w)))
    = if v <=? q
      then filter (fun k => negb (str_eqb name k)) (keys (stock_data w))
      else keys (stock_data w).
Proof.
  intros Hwf Hget.
  rewrite (remove_item_stored name (VInt v) (VInt q) (VInt (v - q)) (v - q <=? 0))
    by (auto using py_le_int_VInt).
  replace (v - q <=? 0) with (v <=? q)
    by (destruct (v <=? q) eqn:E; symmetry;
        [apply Z.leb_le in E; apply Z.leb_le | apply Z.leb_gt in E; apply Z.leb_gt];
        lia).
  destruct (v <=? q); cbn.
  - now apply keys_dict_del.
  - rewrite keys_dict_set. unfold dict_mem. now rewrite Hget.
Qed.

Lemma remove_item_keeps_order_witness :
  let w :=
    set_stock [(py "apple", VInt 10); (py "pear", VInt 4); (py "fig", VInt 2)]
      initial_world in
  dict_wf (stock_data w) /\
  dict_get (py "pear") (stock_data w) = Some (VInt 4) /\
  keys (stock_data (snd (remove_item (VStr (py "pear")) (VInt 4) w)))
    = [py "apple"; py "fig"].
Proof.
  intros w.
  assert (H1 : dict_wf (stock_data w)).
  { repeat constructor; simpl; intuition discriminate. }
  assert (H2 : dict_get (py "pear") (stock_data w) = Some (VInt 4))
    by reflexivity.
  exact (conj H1 (conj H2 (remove_item_keeps_order (py "pear") 4 4 w H1 H2))).
Defined.

(** ** Queries *)

Lemma dict_get_of_ints (name : pystr) (t : list (pystr * Z)) (v : pyval) :
  dict_get name (of_ints t) = Some v -> exists z, v = VInt z.
Proof.
  induction t as [|[k z] t IH]; cbn [of_ints map dict_get fst snd];
    [discriminate|].
  destruct (str_eqb name k); [intros [= <-]; eauto | exact IH].
Qed.

(** X11: on a table of integers [get_qty] uses None as the "not found"
    answer faithfully: it returns None exactly when [item in stock_data] is
    false, and it never changes the world.  (For an unhashable item both the
    lookup and the membership test raise TypeError.) *)
Theorem get_qty_none_iff_absent (item : pyval) (t : list (pystr * Z))
    (w : world) :
  let w0 := set_stock (of_ints t) w in
  snd (get_qty item w0) = w0 /\
  (fst (get_qty item w0) = Return VNone <->
   py_in item (of_ints t) = Return false) /\
  (fst (get_qty item w0) = Raise TypeError <->
   py_in item (of_ints t) = Raise TypeError).
Proof.
  intros w0. subst w0. unfold get_qty, py_in, bind, lift, gets.
  destruct item; cbn; try (split; [reflexivity | split; split; congruence]).
  unfold dict_mem. destruct (dict_get s (of_ints t)) as [v|] eqn:E.
  - destruct (dict_get_of_ints _ _ _ E) as [z ->].
    split; [reflexivity | split; split; congruence].
  - split; [reflexivity | split; split; congruence].
Qed.

Lemma low_items_cases (threshold : Z) (d : dict) :
  if all_numeric d
  then exists l, low_items threshold d = Return l /\ incl l (keys d)
  else low_items threshold d = Raise TypeError.
Proof.
  induction d as [|[k v] d IH]; cbn [all_numeric forallb low_items snd].
  - exists []. split; [reflexivity | intros x []].
  - fold (all_numeric d). unfold py_lt_int, py_compare_int.
    destruct (as_num v) as [n|]; cbn [andb obind]; [|reflexivity].
    destruct (all_numeric d).
    + destruct IH as [l [-> Hl]].
      destruct n; cbn [obind];
        match goal with
        | |- context [if ?b then _ else _] => destruct b
        end;
        eexists; (split; [reflexivity|]); cbn [keys map fst];
        intros x Hx; try (destruct Hx as [<-|Hx]; [now left|]);
        right; now apply Hl.
    + rewrite IH. destruct n; reflexivity.
Qed.

(** X12: [check_low_items] never changes the world, and it has no handler:
    it returns normally (a list of keys of the table) exactly when every
    stored quantity is a number; a single quantity that is text, None, a list
    or a dict makes the comparison raise TypeError to the caller. *)
Theorem check_low_items_returns_or_raises (threshold : Z) (w : world) :
  snd (check_low_items threshold w) = w /\
  if all_numeric (stock_data w)
  then exists l, fst (check_low_items threshold w) = Return l /\
                 incl l (keys (stock_data w))
  else fst (check_low_items threshold w) = Raise TypeError.
Proof.
  unfold check_low_items, bind, gets, lift. cbn [fst snd].
  split; [reflexivity|]. apply low_items_cases.
Qed.

(** X13: on a table of integers raising the threshold never drops an item
    from the low-stock list: everything reported at [t1] is reported at any
    [t2 >= t1]. *)
Theorem check_low_items_monotone (t1 t2 : Z) (t : list (pystr * Z))
    (w : world) :
  t1 <= t2 ->
  let w0 := set_stock (of_ints t) w in
  exists l1 l2,
    fst (check_low_items t1 w0) = Return l1 /\
    fst (check_low_items t2 w0) = Return l2 /\
    incl l1 l2.
Proof.
  intros Hle w0. subst w0.
  unfold check_low_items, bind, gets, lift. cbn [fst snd stock_data set_stock].
  rewrite !low_items_of_ints. eexists; eexists.
  split; [reflexivity | split; [reflexivity|]].
  intros k Hk. apply in_map_iff in Hk as [kv [<- Hin]].
  apply filter_In in Hin as [Hin Hlt]. apply in_map, filter_In.
  split; [assumption|]. apply Z.ltb_lt in Hlt. apply Z.ltb_lt. lia.
Qed.

Lemma check_low_items_monotone_witness :
  let t := [(py "apple", 7); (py "banana", 2); (py "orange", 1)] in
  let w0 := set_stock (of_ints t) initial_world in
  2 <= 5 /\
  exists l1 l2,
    fst (check_low_items 2 w0) = Return l1 /\
    fst (check_low_items 5 w0) = Return l2 /\
    incl l1 l2.
Proof.
  intros t w0.
  assert (H : 2 <= 5) by lia.
  exact (conj H (check_low_items_monotone 2 5 t initial_world H)).
Defined.


(** ** More on [remove_item] and on the keys *)

(** X15: unlike [add_item], [remove_item] survives a stored quantity that
    is not a number (text or None read from a file, say): the decrement
    raises TypeError, the handler logs it, and the table is as before,
    whatever [qty] is. *)
Theorem remove_item_non_numeric_stock_logs (name : pystr) (cur qty : pyval)
    (w : world) :
  dict_get name (stock_data w) = Some cur ->
  as_num cur = None ->
  remove_item (VStr name) qty w =
  (Return tt,
   set_log (inventory_log w ++
            [mkLog ERROR "Error removing item %s: %s"
               [AVal (VStr name); AExc TypeError]]) w).
Proof.
  intros Hget Hcur.
  rewrite (remove_item_faults name cur qty TypeError w Hget).
  - reflexivity.
  - unfold py_sub. now rewrite Hcur.
Qed.

Lemma remove_item_non_numeric_stock_logs_witness :
  let w := set_stock [(py "apple", VNone)] initial_world in
  dict_get (py "apple") (stock_data w) = Some VNone /\
  as_num VNone = None /\
  stock_data (snd (remove_item (VStr (py "apple")) (VInt 1) w)) = stock_data w.
Proof.
  intros w.
  assert (H1 : dict_get (py "apple") (stock_data w) = Some VNone) by reflexivity.
  assert (H2 : as_num VNone = None) by reflexivity.
  split; [exact H1 | split; [exact H2|]].
  rewrite (remove_item_non_numeric_stock_logs (py "apple") VNone (VInt 1) w H1 H2).
  reflexivity.
Defined.

Lemma run_op_wf (o : op) (w : world) :
  dict_wf (stock_data w) -> dict_wf (stock_data (snd (run_op o w))).
Proof.
  intros Hwf. destruct o as [item qty logs | item qty]; cbn [run_op].
  - destruct (isinstance_str item) eqn:Hi;
      [destruct (isinstance_int qty) eqn:Hq|].
    + destruct item; try discriminate Hi.
      destruct (py_add (current s (stock_data w)) qty) as [v|e] eqn:Hadd.
      * rewrite (add_item_accepted_world s qty v logs w Hq Hadd).
        destruct logs; cbn; now apply dict_wf_set.
      * rewrite (add_item_raises s qty e logs w Hq Hadd). assumption.
    + rewrite add_item_rejected by auto. assumption.
    + rewrite add_item_rejected by auto. assumption.
  - destruct (hash_key item) as [[name|]|e] eqn:Hk.
    + destruct item; try discriminate Hk. injection Hk as ->.
      destruct (dict_get name (stock_data w)) as [cur|] eqn:Hget.
      * destruct (py_sub cur qty) as [v|e] eqn:Hsub.
        -- destruct (py_sub_returns _ _ _ Hsub) as [n Hn].
           destruct (py_le_int_num v n 0 Hn) as [le Hle].
           rewrite (remove_item_stored name cur qty v le w Hget Hsub Hle).
           destruct le; cbn; [now apply dict_wf_del | now apply dict_wf_set].
        -- rewrite (remove_item_faults name cur qty e w Hget Hsub).
           destruct (catches _ e); assumption.
      * rewrite remove_item_absent; [assumption|].
        unfold py_in, key_mem, dict_mem; simpl. now rewrite Hget.
    + rewrite remove_item_absent; [assumption|].
      unfold py_in; rewrite Hk; reflexivity.
    + assert (e = TypeError) as -> by (destruct item; cbn in Hk; congruence).
      rewrite remove_item_unhashable by assumption. assumption.
Qed.

(** X16: the table never holds a key twice: starting from the empty
    table, after any sequence of [add_item] and [remove_item] calls, with
    any arguments and outcomes, the keys are pairwise distinct. *)
Theorem run_ops_keys_unique (ops : list op) (w : world) :
  stock_data w = [] -> dict_wf (stock_data (run_ops ops w)).
Proof.
  intros Hempty.
  assert (Hwf : dict_wf (stock_data w)) by (rewrite Hempty; constructor).
  clear Hempty. revert w Hwf.
  induction ops as [|o ops IH]; intros w Hwf; [assumption|].
  change (run_ops (o :: ops) w) with (run_ops ops (snd (run_op o w))).
  apply IH. now apply run_op_wf.
Qed.

Lemma run_ops_keys_unique_witness :
  let ops :=
    [OpAdd (VStr (py "apple")) (VInt 10) None;
     OpAdd (VStr (py "pear")) (VInt 2) None;
     OpAdd (VStr (py "apple")) (VInt (-3)) None;
     OpRemove (VStr (py "pear")) (VFloat 0.5)] in
  stock_data initial_world = [] /\
  dict_wf (stock_data (run_ops ops initial_world)).
Proof.
  intros ops.
  assert (H : stock_data initial_world = []) by reflexivity.
  exact (conj H (run_ops_keys_unique ops initial_world H)).
Defined.

(* ===================================================================== *)
(** * Further properties of persistence *)
(* ===================================================================== *)

Section PersistMore.

Variable floatstr : float -> pystr.
Variable parse_float : pystr -> float.

Ltac unfold_files :=
  unfold load_data, save_data, try_except, handle, open_read, open_write,
    write_text, put_node, logging_info, logging_warning, logging_error,
    logging, bind, gets, lift, modify, ret, raise.



(** X18: [load_data] never changes the stock table, the file system or the
    console.  When it returns it has logged exactly one record, and unless
    that record is the INFO record of a successful load the result is the
    empty mapping; when it raises, the world is as it was. *)
Theorem load_data_leaves_state (file : pystr) (w : world) :
  let r := load_data parse_float file w in
  stock_data (snd r) = stock_data w /\
  files (snd r) = files w /\
  console (snd r) = console w /\
  ((exists data rec,
      fst r = Return data /\
      inventory_log (snd r) = inventory_log w ++ [rec] /\
      (log_level rec = INFO \/ data = VDict []))
   \/
   (exists e, fst r = Raise e /\ snd r = w)).
Proof.
  unfold_files.
  destruct (file_node file (files w)) as [c| |rd wr content];
    cbn -[json.loads textio.read_text].
  - repeat split. left. eexists; eexists. repeat split. now right.
  - repeat split. right. eexists. split; reflexivity.
  - destruct rd; cbn -[json.loads textio.read_text].
    + destruct (textio.read_text content) as [text|e];
        cbn -[json.loads].
      * destruct (json.loads parse_float text) as [data|e]; cbn.
        -- repeat split. left. eexists; eexists. repeat split. now left.
        -- destruct e; cbn; repeat split;
             first [ right; eexists; split; reflexivity
                   | left; eexists; eexists; repeat split; now right ].
      * destruct e; cbn; repeat split;
          first [ right; eexists; split; reflexivity
                | left; eexists; eexists; repeat split; now right ].
    + repeat split. right. eexists. split; reflexivity.
Qed.







End PersistMore.




